(** * File Content Extractor (main.py): a shallow embedding and its properties

    The program is a single Python script.  Its pure helpers
    ([should_ignore_path]), its file readers ([is_binary_file],
    [extract_file_content]), the directory walk
    ([get_files_from_directory]) and the top-level script (uploads, merge,
    selection, generation, cleanup) are embedded below in the order of the
    source.  Python [str] values are represented by their UTF-8 encoding as
    [string]; byte-wise comparison of such strings is code-point comparison. *)

From Stdlib.Strings Require Import String Ascii Byte.
From Stdlib Require Import List Bool Arith NArith Lia.
From Stdlib Require Import Permutation Sorting.Sorted.
Import ListNotations.
Open Scope string_scope.

(** ** Python primitives *)
Module Py.

(** The exception classes the script distinguishes: [UnicodeDecodeError] has
    a handler of its own, every other [Exception] raised by the file system
    is an [OSError]; both carry the text [str(e)] gives. *)
Inductive exn : Type :=
| UnicodeDecodeError (msg : string)
| OSError (msg : string).

Definition str_of_exn (e : exn) : string :=
  match e with
  | UnicodeDecodeError msg => msg
  | OSError msg => msg
  end.

(** The outcome of evaluating an expression: a value or a raised exception. *)
Inductive res (A : Type) : Type :=
| Ret (a : A)
| Raise (e : exn).
Arguments Ret {A} a.
Arguments Raise {A} e.

(** The line feed, [chr 10]. *)
Definition NL : string := String (ascii_of_nat 10) EmptyString.
(** The carriage return, [chr 13]. *)
Definition CR : ascii := ascii_of_nat 13.
Definition LF : ascii := ascii_of_nat 10.

(** [s.startswith(p)]. *)
Definition startswith (s p : string) : bool := String.prefix p s.

(** Truth value of an optional string: [None] and the empty string are
    false. *)
Definition truthy (o : option string) : bool :=
  match o with
  | None => false
  | Some EmptyString => false
  | Some (String _ _) => true
  end.

(** [sep.join(l)]. *)
Definition join (sep : string) (l : list string) : string := String.concat sep l.

(** [x in l] for a list or set of strings. *)
Definition str_in (x : string) (l : list string) : bool :=
  existsb (String.eqb x) l.

(** [b'\0' in chunk]. *)
Definition has_null (chunk : list byte) : bool :=
  existsb (Byte.eqb x00) chunk.

(** [f.read(n)] on a binary file positioned at its start. *)
Definition read_prefix (n : nat) (data : list byte) : list byte := firstn n data.

(** *** Strict UTF-8 decoding

    [utf8_valid] accepts exactly the well-formed byte sequences of the
    Unicode standard (no overlong forms, no surrogates, nothing above
    U+10FFFF), which is what the [utf-8] codec accepts with
    [errors='strict']. *)
Definition in_range (lo hi : N) (b : byte) : bool :=
  let n := Byte.to_N b in (N.leb lo n && N.leb n hi)%bool.

Definition cont (b : byte) : bool := in_range 128 191 b.

Fixpoint utf8_valid (bs : list byte) : bool :=
  match bs with
  | [] => true
  | b0 :: r0 =>
    if in_range 0 127 b0 then utf8_valid r0
    else match r0 with
    | [] => false
    | b1 :: r1 =>
      if in_range 194 223 b0 then cont b1 && utf8_valid r1
      else match r1 with
      | [] => false
      | b2 :: r2 =>
        if in_range 224 224 b0 then
          in_range 160 191 b1 && cont b2 && utf8_valid r2
        else if in_range 237 237 b0 then
          in_range 128 159 b1 && cont b2 && utf8_valid r2
        else if in_range 225 239 b0 then
          cont b1 && cont b2 && utf8_valid r2
        else match r2 with
        | [] => false
        | b3 :: r3 =>
          if in_range 240 240 b0 then
            in_range 144 191 b1 && cont b2 && cont b3 && utf8_valid r3
          else if in_range 241 243 b0 then
            cont b1 && cont b2 && cont b3 && utf8_valid r3
          else if in_range 244 244 b0 then
            in_range 128 143 b1 && cont b2 && cont b3 && utf8_valid r3
          else false
        end
      end
    end
  end.

(** [bytes.decode('utf-8')]: the text, kept in its UTF-8 representation. *)
Definition decode_utf8 (bs : list byte) : res string :=
  if utf8_valid bs then Ret (string_of_list_byte bs)
  else Raise (UnicodeDecodeError "'utf-8' codec can't decode bytes").

(** Text mode with the default [newline=None] reads with universal newlines:
    CR LF and a lone CR both come back as LF. *)
Fixpoint universal_newlines (s : string) : string :=
  match s with
  | EmptyString => EmptyString
  | String c s' =>
    if Ascii.eqb c CR then
      match s' with
      | String d s'' =>
        if Ascii.eqb d LF then String LF (universal_newlines s'')
        else String LF (universal_newlines s')
      | EmptyString => String LF EmptyString
      end
    else String c (universal_newlines s')
  end.

End Py.

(** ** [fnmatch.fnmatch] on POSIX

    [os.path.normcase] is the identity there, and the pattern is compiled to
    a regular expression matched against the whole name with DOTALL: [*]
    stands for any run of characters whatever, [?] for any one character,
    anything else for itself.  Bracket expressions are left out: no pattern
    of the script has one. *)
Module Fnmatch.

Definition star : ascii := "*"%char.
Definition qmark : ascii := "?"%char.

Fixpoint fnmatch_pat (pat : string) : string -> bool :=
  match pat with
  | EmptyString => fun name =>
      match name with EmptyString => true | String _ _ => false end
  | String p pat' =>
    if Ascii.eqb p star then
      fix any_run (name : string) : bool :=
        fnmatch_pat pat' name
        || match name with
           | EmptyString => false
           | String _ name' => any_run name'
           end
    else if Ascii.eqb p qmark then fun name =>
      match name with
      | EmptyString => false
      | String _ name' => fnmatch_pat pat' name'
      end
    else fun name =>
      match name with
      | EmptyString => false
      | String c name' => Ascii.eqb p c && fnmatch_pat pat' name'
      end
  end.

(** [fnmatch.fnmatch(name, pat)]. *)
Definition fnmatch (name pat : string) : bool := fnmatch_pat pat name.

End Fnmatch.

(** ** [posixpath] *)
Module Posixpath.

Definition sep : ascii := "/"%char.

Fixpoint endswith_sep (a : string) : bool :=
  match a with
  | EmptyString => false
  | String c EmptyString => Ascii.eqb c sep
  | String _ a' => endswith_sep a'
  end.

(** [os.path.join(a, b)]: an absolute [b] discards [a]; a separator is
    inserted unless [a] is empty or already ends with one. *)
Definition join (a b : string) : string :=
  match b with
  | String c _ =>
    if Ascii.eqb c sep then b
    else match a with
         | EmptyString => b
         | _ => if endswith_sep a then a ++ b else a ++ "/" ++ b
         end
  | EmptyString =>
    match a with
    | EmptyString => b
    | _ => if endswith_sep a then a ++ b else a ++ "/" ++ b
    end
  end.

(** The last component of a path: what follows its last separator. *)
Fixpoint basename (p : string) : string :=
  match p with
  | EmptyString => EmptyString
  | String c p' =>
    if existsb (Ascii.eqb sep) (list_ascii_of_string p') then basename p'
    else if Ascii.eqb c sep then p' else p
  end.

Definition has_char (c : ascii) (s : string) : bool :=
  existsb (Ascii.eqb c) (list_ascii_of_string s).

End Posixpath.

(** ** Path Classifier: [should_ignore_path] *)

(** The list literal of the source.  After ['.DS_Store'] on the line before
    the second comment there is no comma, so Python joins that literal with
    ['*.pdf'] of the next group into the single entry ['.DS_Store*.pdf']. *)
Definition ignore_patterns : list string :=
  [ "env/*"; ".env/*"; "venv/*"; ".venv/*";
    ".gitignore"; ".git/*";
    "__pycache__/*"; "*.pyc"; "*.pyo";
    ".pytest_cache/*"; ".coverage";
    ".DS_Store"; "Thumbs.db";
    "node_modules/*"; ".npm/*";
    ".cache/*"; "*.log";
    "*.min"; "*.svg"; "*.min.css"; "*.woff"; "*.min.js";
    "*.woff2"; "*._.DS_Store"; "*.DS_Store"; ".DS_Store" ++
    "*.pdf"; "*.png"; "*.jpg"; "*.jpeg"; "*.gif"; "*.ico";
    "*.zip"; "*.tar"; "*.gz"; "*.rar"; "*.7z";
    "*.exe"; "*.dll"; "*.so"; "*.dylib";
    "*.db"; "*.sqlite"; "*.sqlite3";
    "*.pkl"; "*.pickle";
    "*.bin"; "*.dat";
    "*.mp3"; "*.wav"; "*.mp4"; "*.avi"; "*.mov";
    "*.doc"; "*.docx"; "*.xls"; "*.xlsx"; "*.ppt";
    "*.psd"; "*.ai" ].

Definition should_ignore_path (path : string) : bool :=
  existsb (fun pattern => Fnmatch.fnmatch path pattern) ignore_patterns.

(** ** Dictionaries

    A Python [dict] with string keys: the items in insertion order, no key
    twice.  Assigning to a key that is present replaces its value in place;
    a new key goes to the end. *)
Module Dict.

Definition dict : Type := list (string * string).

Fixpoint set (k v : string) (d : dict) : dict :=
  match d with
  | [] => [(k, v)]
  | (k', v') :: d' =>
    if String.eqb k' k then (k', v) :: d' else (k', v') :: set k v d'
  end.

Fixpoint get (k : string) (d : dict) : option string :=
  match d with
  | [] => None
  | (k', v') :: d' => if String.eqb k' k then Some v' else get k d'
  end.

(** [d.update(e)]: the items of [e] assigned in their order. *)
Definition update (d e : dict) : dict :=
  fold_left (fun acc kv => set (fst kv) (snd kv) acc) e d.

Definition keys (d : dict) : list string := map fst d.
Definition values (d : dict) : list string := map snd d.

End Dict.

(** ** [sorted] *)
Module Sorted.

Section Insertion.
Context {A : Type} (leb : A -> A -> bool).

Fixpoint insert (x : A) (l : list A) : list A :=
  match l with
  | [] => [x]
  | y :: l' => if leb x y then x :: l else y :: insert x l'
  end.

(** [sorted(l)] for a total order: the result does not depend on the
    algorithm, so insertion stands for Python's merge sort. *)
Definition sorted (l : list A) : list A := fold_right insert [] l.

End Insertion.

(** [<=] on [str]. *)
Definition str_leb (a b : string) : bool := String.leb a b.

(** [<=] on pairs of [str]: by the first component, then the second. *)
Definition tuple_leb (a b : string * string) : bool :=
  match String.compare (fst a) (fst b) with
  | Lt => true
  | Gt => false
  | Eq => String.leb (snd a) (snd b)
  end.

End Sorted.

(** ** The file system and what the script does to it *)

(** What opening and reading a path gives: [open] fails (no such file, a
    directory, no permission), [open] succeeds and [read] fails, or the
    file's bytes. *)
Inductive file_state : Type :=
| CannotOpen (msg : string)
| CannotRead (msg : string)
| Readable (data : list byte).

Definition fs : Type := string -> file_state.

Inductive open_mode : Type := RB | RText.

(** What the script does that can be observed from outside. *)
Inductive event : Type :=
| EvOpen (path : string) (mode : open_mode)
| EvRead (path : string) (size : option nat)
| EvUnlink (path : string)
| EvError (msg : string)
| EvDownload (label data file_name mime : string).

(** Code that reads the file system: a value or an exception, and the trace
    of what it did. *)
Definition io (A : Type) : Type := fs -> Py.res A * list event.

Definition ret {A : Type} (a : A) : io A := fun _ => (Py.Ret a, []).

Definition bind {A B : Type} (m : io A) (k : A -> io B) : io B :=
  fun w =>
    match m w with
    | (Py.Ret a, tr) => let (r, tr') := k a w in (r, (tr ++ tr')%list)
    | (Py.Raise e, tr) => (Py.Raise e, tr)
    end.

(** [try: m  except Exception as e: h e]. *)
Definition try_except {A : Type} (m : io A) (h : Py.exn -> io A) : io A :=
  fun w =>
    match m w with
    | (Py.Ret a, tr) => (Py.Ret a, tr)
    | (Py.Raise e, tr) => let (r, tr') := h e w in (r, (tr ++ tr')%list)
    end.

Notation "x <- m ;; k" := (bind m (fun x => k))
  (at level 61, m at next level, right associativity).

(** An open file: its path and what reading it will give. *)
Record handle : Type := { h_path : string; h_state : file_state }.

Definition open_file (path : string) (mode : open_mode) : io handle :=
  fun w =>
    match w path with
    | CannotOpen msg => (Py.Raise (Py.OSError msg), [EvOpen path mode])
    | st => (Py.Ret {| h_path := path; h_state := st |}, [EvOpen path mode])
    end.

(** [f.read(n)] in binary mode. *)
Definition read_bytes (f : handle) (n : nat) : io (list byte) :=
  fun _ =>
    match h_state f with
    | Readable data => (Py.Ret (Py.read_prefix n data), [EvRead (h_path f) (Some n)])
    | CannotRead msg => (Py.Raise (Py.OSError msg), [EvRead (h_path f) (Some n)])
    | CannotOpen msg => (Py.Raise (Py.OSError msg), [EvRead (h_path f) (Some n)])
    end.

(** [f.read()] in text mode with [encoding='utf-8']. *)
Definition read_text (f : handle) : io string :=
  fun _ =>
    match h_state f with
    | Readable data =>
      (match Py.decode_utf8 data with
       | Py.Ret s => Py.Ret (Py.universal_newlines s)
       | Py.Raise e => Py.Raise e
       end, [EvRead (h_path f) None])
    | CannotRead msg => (Py.Raise (Py.OSError msg), [EvRead (h_path f) None])
    | CannotOpen msg => (Py.Raise (Py.OSError msg), [EvRead (h_path f) None])
    end.

(** A directory as [os.walk] lists it: its subdirectories, each a name with
    a listing of its own, and the names of its files.  A subdirectory the
    walk lists but does not go through (a symbolic link, a directory it may
    not read) is one with an empty listing. *)
Inductive tree : Type :=
| Dir (dirs : forest) (file_names : list string)
with forest : Type :=
| NoDirs
| SubDir (name : string) (sub : tree) (rest : forest).

Scheme tree_forest_ind := Induction for tree Sort Prop
  with forest_tree_ind := Induction for forest Sort Prop.

(** The host outside the script: the files, the paths [os.unlink] refuses
    (with the error's text), the text of the error raised for a path that
    is not there (Python prints [[Errno 2] No such file or directory:] and
    the [repr] of the path), and how many temporary names were handed out. *)
Record world : Type := {
  files : fs;
  unlink_failure : string -> option string;
  missing_text : string -> string;
  next_tmp : nat
}.

(** What the user gives one run of the script. *)
Record inputs : Type := {
  uploaded_files : list (string * list byte);
  uploaded_dir : string;
  dir_on_disk : option tree;
  checkbox : string -> bool;
  button : bool
}.

(** What the host may answer instead of storing an upload:
    [NamedTemporaryFile] raises and no file is made, or the file is made and
    the write, or the flush when the [with] block is left, raises, the file
    staying behind with what reached it. *)
Inductive refusal : Type :=
| NoTemporaryFile (msg : string)
| WriteFails (msg : string) (reached : list byte).

Section Script.

(** [mimetypes.guess_type(path)[0]]. *)
Variable guess_type : string -> option string.
(** [tempfile.gettempdir()]. *)
Variable gettempdir : string.
(** The random part of the [n]-th name [NamedTemporaryFile] makes up. *)
Variable tmp_suffix : nat -> string.

(** *** Binary Detector *)
Definition is_binary_file (file_path : string) : io bool :=
  let mime_type := guess_type file_path in
  if Py.truthy mime_type then
    ret (negb (Py.startswith (match mime_type with Some t => t | None => "" end) "text/"))
  else
    try_except
      (f <- open_file file_path RB ;;
       chunk <- read_bytes f 1024 ;;
       ret (Py.has_null chunk))
      (fun _ => ret true).

(** *** Content Extractor *)
Definition extract_file_content (file_path : string) : io string :=
  skip <- is_binary_file file_path ;;
  if (skip : bool) then ret ("[Skipped binary file: " ++ file_path ++ "]")
  else
    try_except
      (f <- open_file file_path RText ;; read_text f)
      (fun e =>
         match e with
         | Py.UnicodeDecodeError _ =>
           ret ("[Skipped: File " ++ file_path ++ " is not valid UTF-8 text]")
         | _ =>
           ret ("[Error reading file " ++ file_path ++ ": " ++ Py.str_of_exn e ++ "]")
         end).

(** *** Tree Collector *)

(** [os.path.relpath(full_path, directory_path)], where [full_path] is the
    walk's [root] joined with [file]: the names of the directories walked
    through below [directory_path], then [file], joined by the separator. *)
Definition relpath (below : list string) (file : string) : string :=
  Py.join "/" (below ++ [file])%list.

(** The inner loop [for file in files]. *)
Fixpoint add_files (root : string) (below : list string) (ignore_list : list string)
    (file_names : list string) (files_dict : Dict.dict) : Dict.dict :=
  match file_names with
  | [] => files_dict
  | file :: rest =>
    let full_path := Posixpath.join root file in
    let rel_path := relpath below file in
    if negb (Py.str_in rel_path ignore_list) && negb (should_ignore_path rel_path)
    then add_files root below ignore_list rest (Dict.set rel_path full_path files_dict)
    else add_files root below ignore_list rest files_dict
  end.

(** [os.walk] top down: a directory's files first, then each subdirectory
    left in [dirs], at [os.path.join(root, d)].  The filter
    [dirs[:] = [d for d in dirs if not should_ignore_path(d)]] is applied as
    the list is gone through. *)
Fixpoint walk (t : tree) (root : string) (below : list string)
    (ignore_list : list string) (files_dict : Dict.dict) : Dict.dict :=
  match t with
  | Dir dirs file_names =>
    walk_dirs dirs root below ignore_list
      (add_files root below ignore_list file_names files_dict)
  end
with walk_dirs (ds : forest) (root : string) (below : list string)
    (ignore_list : list string) (files_dict : Dict.dict) : Dict.dict :=
  match ds with
  | NoDirs => files_dict
  | SubDir d sub ds' =>
    if should_ignore_path d then walk_dirs ds' root below ignore_list files_dict
    else walk_dirs ds' root below ignore_list
           (walk sub (Posixpath.join root d) (below ++ [d])%list ignore_list files_dict)
  end.

Definition get_files_from_directory (directory_path : string) (t : tree)
    (ignore_list : list string) : Dict.dict :=
  walk t directory_path [] ignore_list [].

(** *** The script *)

(** The name of the [n]-th temporary file. *)
Definition tmp_name (n : nat) : string :=
  Posixpath.join gettempdir ("tmp" ++ tmp_suffix n).

(** [for uploaded_file in uploaded_files]: the bytes go to a new temporary
    file, which is kept ([delete=False]), and the upload's name is bound to
    that file's path.  This is the loop on a host that lets every file be
    made and written; [upload_loop] below is the loop on a host that may
    refuse. *)
Fixpoint store_uploads (ups : list (string * list byte)) (w : world)
    (files_to_process : Dict.dict) : world * Dict.dict :=
  match ups with
  | [] => (w, files_to_process)
  | (name, value) :: rest =>
    let tmp := tmp_name (next_tmp w) in
    let w' := {| files := fun p => if String.eqb p tmp then Readable value else files w p;
                 unlink_failure := fun p => if String.eqb p tmp then None else unlink_failure w p;
                 missing_text := missing_text w;
                 next_tmp := S (next_tmp w) |} in
    store_uploads rest w' (Dict.set name tmp files_to_process)
  end.

(** [files_to_process] once uploads and the directory are merged. *)
Definition merge_sources (inp : inputs) (w : world) : world * Dict.dict :=
  let (w1, files_to_process) := store_uploads (uploaded_files inp) w [] in
  match uploaded_dir inp, dir_on_disk inp with
  | String _ _, Some t =>
    (w1, Dict.update files_to_process (get_files_from_directory (uploaded_dir inp) t []))
  | _, _ => (w1, files_to_process)
  end.

(** The check boxes: every name that is unchecked joins [ignore_list]. *)
Definition selection (inp : inputs) (files_to_process : Dict.dict) : list string :=
  filter (fun file_name => negb (checkbox inp file_name))
         (Sorted.sorted Sorted.str_leb (Dict.keys files_to_process)).

Definition delimiter (file_name : string) : string :=
  "==================== " ++ file_name ++ " ====================" ++ Py.NL.

(** The loop that fills [combined_content]. *)
Fixpoint combine (items : list (string * string)) (ignore_list : list string)
    (combined_content : list string) : io (list string) :=
  match items with
  | [] => ret combined_content
  | (file_name, file_path) :: rest =>
    if negb (Py.str_in file_name ignore_list) then
      content <- extract_file_content file_path ;;
      combine rest ignore_list
        (combined_content ++ [delimiter file_name] ++ [(content ++ Py.NL ++ Py.NL)%string])%list
    else combine rest ignore_list combined_content
  end.

(** What the button does: [final_content]. *)
Definition generate (files_to_process : Dict.dict) (ignore_list : list string)
    : io string :=
  combined_content <-
    combine (Sorted.sorted Sorted.tuple_leb files_to_process) ignore_list [] ;;
  ret (Py.join Py.NL combined_content).

(** [os.unlink(path)]: once a path is deleted it is not there, for [open]
    and for a second [os.unlink] alike. *)
Definition unlink (path : string) (w : world) : Py.res unit * world :=
  match unlink_failure w path with
  | Some msg => (Py.Raise (Py.OSError msg), w)
  | None =>
    (Py.Ret tt,
     {| files := fun p => if String.eqb p path
                          then CannotOpen (missing_text w path) else files w p;
        unlink_failure := fun p => if String.eqb p path
                                   then Some (missing_text w path)
                                   else unlink_failure w p;
        missing_text := missing_text w;
        next_tmp := next_tmp w |})
  end.

(** The last loop of the script, over [files_to_process.values()]. *)
Fixpoint cleanup (paths : list string) (w : world) : world * list event :=
  match paths with
  | [] => (w, [])
  | path :: rest =>
    if Py.startswith path gettempdir then
      match unlink path w with
      | (Py.Ret _, w') =>
        let (w'', tr) := cleanup rest w' in (w'', EvUnlink path :: tr)
      | (Py.Raise e, w') =>
        let (w'', tr) := cleanup rest w' in
        (w'', EvUnlink path
              :: EvError ("Error cleaning up temporary file: " ++ Py.str_of_exn e)
              :: tr)
      end
    else cleanup rest w
  end.

(** One run of the script, top to bottom, on a host that stores every
    upload.  An exception that escapes the generation ends the run there. *)
Definition script (inp : inputs) (w : world) : Py.res unit * world * list event :=
  let (w1, files_to_process) := merge_sources inp w in
  let ignore_list :=
    match files_to_process with
    | [] => []
    | _ => selection inp files_to_process
    end in
  let generated :=
    match files_to_process with
    | [] => (Py.Ret tt, [])
    | _ =>
      if button inp then
        match generate files_to_process ignore_list (files w1) with
        | (Py.Ret final_content, tr) =>
          (Py.Ret tt,
           (tr ++ [EvDownload "Download Combined Text File" final_content
                              "combined_content.txt" "text/plain"])%list)
        | (Py.Raise e, tr) => (Py.Raise e, tr)
        end
      else (Py.Ret tt, [])
    end in
  match generated with
  | (Py.Ret _, tr) =>
    let (w2, tr') := cleanup (Dict.values files_to_process) w1 in
    (Py.Ret tt, w2, (tr ++ tr')%list)
  | (Py.Raise e, tr) => (Py.Raise e, w1, tr)
  end.

(** [for uploaded_file in uploaded_files] on a host that may refuse:
    [refused n] is its answer when the [n]-th temporary file is asked for.
    The loop has no handler, so the first refusal ends it; the files made
    before stay as they are. *)
Fixpoint upload_loop (refused : nat -> option refusal)
    (ups : list (string * list byte)) (w : world) (files_to_process : Dict.dict)
    : Py.res Dict.dict * world :=
  match ups with
  | [] => (Py.Ret files_to_process, w)
  | (name, value) :: rest =>
    let tmp := tmp_name (next_tmp w) in
    let made data :=
      {| files := fun p => if String.eqb p tmp then Readable data else files w p;
         unlink_failure := fun p => if String.eqb p tmp then None else unlink_failure w p;
         missing_text := missing_text w;
         next_tmp := S (next_tmp w) |} in
    match refused (next_tmp w) with
    | Some (NoTemporaryFile msg) => (Py.Raise (Py.OSError msg), w)
    | Some (WriteFails msg reached) => (Py.Raise (Py.OSError msg), made reached)
    | None => upload_loop refused rest (made value) (Dict.set name tmp files_to_process)
    end
  end.

(** One run of the script on any host.  An exception in the loop over the
    uploads ends the run there: nothing is read, offered or deleted.  When
    every upload is stored the run goes on as [script] has it. *)
Definition run (refused : nat -> option refusal) (inp : inputs) (w : world)
    : Py.res unit * world * list event :=
  match upload_loop refused (uploaded_files inp) w [] with
  | (Py.Raise e, w') => (Py.Raise e, w', [])
  | (Py.Ret _, _) => script inp w
  end.

End Script.

(** ** Vocabulary of the statements *)

(** A pattern with no wildcard in it. *)
Fixpoint literal (pat : string) : bool :=
  match pat with
  | EmptyString => true
  | String p pat' =>
    negb (Ascii.eqb p Fnmatch.star) && negb (Ascii.eqb p Fnmatch.qmark) && literal pat'
  end.

(** [k] equals signs. *)
Fixpoint equals (k : nat) : string :=
  match k with
  | O => EmptyString
  | S k' => String "="%char (equals k')
  end.

(** The text of the three placeholders. *)
Definition skipped_binary (file_path : string) : string :=
  "[Skipped binary file: " ++ file_path ++ "]".
Definition not_utf8 (file_path : string) : string :=
  "[Skipped: File " ++ file_path ++ " is not valid UTF-8 text]".
Definition read_error (file_path msg : string) : string :=
  "[Error reading file " ++ file_path ++ ": " ++ msg ++ "]".

(** What [extract_file_content] returns once the detector has answered
    [false]. *)
Definition text_or_placeholder (file_path : string) (st : file_state) : string :=
  match st with
  | Readable data =>
    if Py.utf8_valid data
    then Py.universal_newlines (string_of_list_byte data)
    else not_utf8 file_path
  | CannotRead msg => read_error file_path msg
  | CannotOpen msg => read_error file_path msg
  end.

Definition text_trace (file_path : string) (st : file_state) : list event :=
  match st with
  | CannotOpen _ => [EvOpen file_path RText]
  | _ => [EvOpen file_path RText; EvRead file_path None]
  end.

Section Blocks.

Variable guess_type : string -> option string.

(** The string [extract_file_content] returns for a path. *)
Definition extracted (w : fs) (file_path : string) : string :=
  match fst (extract_file_content guess_type file_path w) with
  | Py.Ret s => s
  | Py.Raise _ => EmptyString
  end.

(** One block of the output: the delimiter line, an empty line, the content
    or placeholder, a line end and an empty line. *)
Definition block (w : fs) (item : string * string) : string :=
  equals 20 ++ " " ++ fst item ++ " " ++ equals 20 ++ Py.NL
  ++ Py.NL ++ extracted w (snd item) ++ Py.NL ++ Py.NL.

Definition included (ignore_list : list string) (item : string * string) : bool :=
  negb (Py.str_in (fst item) ignore_list).

Definition pieces (w : fs) (item : string * string) : list string :=
  [delimiter (fst item); (extracted w (snd item) ++ Py.NL ++ Py.NL)%string].

(** The text the button produces. *)
Definition final_content (d : Dict.dict) (ign : list string) (w : fs) : string :=
  match fst (generate guess_type d ign w) with
  | Py.Ret s => s
  | Py.Raise _ => EmptyString
  end.

End Blocks.

(** The data of the downloads a run offers. *)
Fixpoint downloads (tr : list event) : list string :=
  match tr with
  | [] => []
  | EvDownload _ data _ _ :: tr' => data :: downloads tr'
  | _ :: tr' => downloads tr'
  end.

(** The paths a run passed to [os.unlink], in order. *)
Fixpoint unlink_attempts (tr : list event) : list string :=
  match tr with
  | [] => []
  | EvUnlink path :: tr' => path :: unlink_attempts tr'
  | _ :: tr' => unlink_attempts tr'
  end.

(** A trace of file reads: nothing is offered and nothing deleted. *)
Definition reads_only (tr : list event) : Prop :=
  downloads tr = [] /\ unlink_attempts tr = [].

(** Names of directory entries are not empty and hold no separator. *)
Definition entry_name (name : string) : bool :=
  negb (String.eqb name "") && negb (Posixpath.has_char Posixpath.sep name).

Fixpoint wf_tree (t : tree) : bool :=
  match t with
  | Dir dirs file_names => wf_forest dirs && forallb entry_name file_names
  end
with wf_forest (ds : forest) : bool :=
  match ds with
  | NoDirs => true
  | SubDir name sub rest => entry_name name && wf_tree sub && wf_forest rest
  end.

(** *** The ignore list by kind of rule *)

(** Names ignored as they stand. *)
Definition exact_names : list string :=
  [".gitignore"; ".coverage"; ".DS_Store"; "Thumbs.db"].

(** What the patterns that end in a star start with. *)
Definition ignored_prefixes : list string :=
  ["env/"; ".env/"; "venv/"; ".venv/"; ".git/"; "__pycache__/";
   ".pytest_cache/"; "node_modules/"; ".npm/"; ".cache/"].

(** What the patterns that start with a star end with. *)
Definition ignored_suffixes : list string :=
  [".pyc"; ".pyo"; ".log"; ".min"; ".svg"; ".min.css"; ".woff"; ".min.js";
   ".woff2"; "._.DS_Store"; ".DS_Store";
   ".png"; ".jpg"; ".jpeg"; ".gif"; ".ico";
   ".zip"; ".tar"; ".gz"; ".rar"; ".7z";
   ".exe"; ".dll"; ".so"; ".dylib";
   ".db"; ".sqlite"; ".sqlite3";
   ".pkl"; ".pickle";
   ".bin"; ".dat";
   ".mp3"; ".wav"; ".mp4"; ".avi"; ".mov";
   ".doc"; ".docx"; ".xls"; ".xlsx"; ".ppt";
   ".psd"; ".ai"].

(** The patterns of the three lists and the fused one. *)
Definition patterns_by_kind : list string :=
  (exact_names
   ++ map (fun pre => pre ++ "*")%string ignored_prefixes
   ++ map (fun suf => "*" ++ suf)%string ignored_suffixes
   ++ [".DS_Store*.pdf"])%list.

(** [s[n:]]. *)
Fixpoint drop (n : nat) (s : string) : string :=
  match n, s with
  | O, _ => s
  | S _, EmptyString => EmptyString
  | S n', String _ s' => drop n' s'
  end.

(** A path that does not start with the separator. *)
Definition relative (b : string) : bool :=
  match b with
  | EmptyString => true
  | String c _ => negb (Ascii.eqb c Posixpath.sep)
  end.

(** The path an event is about. *)
Definition event_path (e : event) : option string :=
  match e with
  | EvOpen path _ => Some path
  | EvRead path _ => Some path
  | EvUnlink path => Some path
  | EvError _ => None
  | EvDownload _ _ _ _ => None
  end.

(** An item whose name is not in the exclusion set. *)
Definition unlisted (ignore_list : list string) (item : string * string) : bool :=
  negb (Py.str_in (fst item) ignore_list).

(** Where the walk stands: at [dp] itself, or at [dp] joined with the
    directories gone through. *)
Definition at_dir (dp root : string) (below : list string) : Prop :=
  match below with
  | [] => root = dp
  | _ :: _ =>
    let rel := Py.join "/" below in
    rel <> "" /\ relative rel = true /\ Posixpath.endswith_sep rel = false
    /\ root = Posixpath.join dp rel
  end.

Section Button.

Variable guess_type : string -> option string.

(** What the button adds to the trace of a run: the reads of the generation,
    then the download. *)
Definition button_trace (inp : inputs) (d : Dict.dict) (w : fs) : list event :=
  match d with
  | [] => []
  | _ :: _ =>
    if button inp then
      (snd (generate guess_type d (selection inp d) w)
       ++ [EvDownload "Download Combined Text File"
                      (final_content guess_type d (selection inp d) w)
                      "combined_content.txt" "text/plain"])%list
    else []
  end.

End Button.





(** An event of the cleanup: a deletion tried or an error shown. *)
Definition cleanup_event (e : event) : bool :=
  match e with
  | EvUnlink _ => true
  | EvError _ => true
  | _ => false
  end.

(** The text of the error a refusal raises. *)
Definition refusal_text (r : refusal) : string :=
  match r with
  | NoTemporaryFile msg => msg
  | WriteFails msg _ => msg
  end.

(** ** Sample instances of the library functions

    A content-type table and a temporary-name scheme small enough to compute
    with: the examples below run the script on them. *)

Fixpoint endswith (s suf : string) : bool :=
  String.eqb s suf
  || match s with
     | EmptyString => false
     | String _ s' => endswith s' suf
     end.

(** A cut of the [mimetypes] table, by the extension of the last component. *)
Definition sample_guess_type (p : string) : option string :=
  if negb (Posixpath.has_char "."%char (Posixpath.basename p)) then None
  else if endswith p ".txt" then Some "text/plain"
  else if endswith p ".md" then Some "text/markdown"
  else if endswith p ".py" then Some "text/x-python"
  else if endswith p ".png" then Some "image/png"
  else if endswith p ".pdf" then Some "application/pdf"
  else if endswith p ".bin" then Some "application/octet-stream"
  else None.

Fixpoint letters (n : nat) : string :=
  match n with
  | O => EmptyString
  | S n' => String "a"%char (letters n')
  end.

(** Temporary names [tmpaaaaaaaa], [tmpaaaaaaaaa], ... *)
Definition sample_tmp_suffix (n : nat) : string := letters (8 + n).

Definition sample_tmpdir : string := "/tmp".

Definition bytes_of (s : string) : list byte := list_byte_of_string s.

(** [str(e)] of the [FileNotFoundError] for a path with no quote, backslash
    or unprintable character in it, whose [repr] is the path between single
    quotes. *)
Definition enoent (path : string) : string :=
  "[Errno 2] No such file or directory: '" ++ path ++ "'".

(** A host with no file on it. *)
Definition empty_world : world :=
  {| files := fun p => CannotOpen (enoent p);
     unlink_failure := fun p => Some (enoent p);
     missing_text := enoent;
     next_tmp := 0 |}.

(** [/proj/sub/node_modules/readme.md] and nothing else. *)
Definition nested_node_modules : tree :=
  Dir (SubDir "sub"
         (Dir (SubDir "node_modules" (Dir NoDirs ["readme.md"]) NoDirs) [])
         NoDirs)
      [].

(** [/proj/node_modules/readme.md] and [/proj/readme.md]. *)
Definition top_node_modules : tree :=
  Dir (SubDir "node_modules" (Dir NoDirs ["readme.md"]) NoDirs) ["readme.md"].

(** Every check box left checked. *)
Definition all_checked : string -> bool := fun _ => true.

(** The uploads [a.txt], holding [hello], and [b.bin], holding [data]; no
    directory; the button pressed. *)
Definition two_uploads (data : list byte) : inputs :=
  {| uploaded_files := [("a.txt", bytes_of "hello"); ("b.bin", data)];
     uploaded_dir := "";
     dir_on_disk := None;
     checkbox := all_checked;
     button := true |}.

(** A host whose only file is [path], holding [data]. *)
Definition one_file (path : string) (data : list byte) : fs :=
  fun p => if String.eqb p path then Readable data
           else CannotOpen (enoent p).

(** The four bytes [a], CR, LF, [b]. *)
Definition crlf_bytes : list byte := [x61; x0d; x0a; x62].

(** An upload of [a.txt] and a directory [/proj] that holds an [a.txt] too. *)
Definition colliding : inputs :=
  {| uploaded_files := [("a.txt", bytes_of "uploaded")];
     uploaded_dir := "/proj";
     dir_on_disk := Some (Dir NoDirs ["a.txt"; "b.py"]);
     checkbox := all_checked;
     button := true |}.

(** The two temporary copies of [two_uploads] as the only files. *)
Definition two_copies (data : list byte) : fs :=
  fun p => if String.eqb p "/tmp/tmpaaaaaaaa" then Readable (bytes_of "hello")
           else if String.eqb p "/tmp/tmpaaaaaaaaa" then Readable data
           else CannotOpen (enoent p).



(** 1024 bytes [a]. *)
Definition long_chunk : list byte := repeat x61 1024.

(** The uploads of [two_uploads] with the box of [b.bin] unchecked. *)
Definition one_unchecked : inputs :=
  {| uploaded_files := [("a.txt", bytes_of "hello"); ("b.bin", [x00; xff])];
     uploaded_dir := "";
     dir_on_disk := None;
     checkbox := fun name => negb (String.eqb name "b.bin");
     button := true |}.

(** Two uploads under one name. *)
Definition same_name_twice : inputs :=
  {| uploaded_files := [("a.txt", bytes_of "first"); ("a.txt", bytes_of "second")];
     uploaded_dir := "";
     dir_on_disk := None;
     checkbox := all_checked;
     button := true |}.

(** Every box unchecked. *)
Definition none_checked : inputs :=
  {| uploaded_files := [("a.txt", bytes_of "hello")];
     uploaded_dir := "";
     dir_on_disk := None;
     checkbox := fun _ => false;
     button := true |}.

(** [/proj/src/main.py], [/proj/src/notes.log] and [/proj/readme.md]. *)
Definition small_project : tree :=
  Dir (SubDir "src" (Dir NoDirs ["main.py"; "notes.log"]) NoDirs) ["readme.md"].

(** [a.txt] found in a directory and the copy of an uploaded [b.bin]. *)
Definition mixed_host : fs :=
  fun p => if String.eqb p "/proj/a.txt" then Readable (bytes_of "hello")
           else if String.eqb p "/tmp/tmpaaaaaaaa" then Readable [xff; xfe]
           else CannotOpen (enoent p).






(** A host with no room left when the second temporary file is written:
    the file is made and stays empty. *)
Definition full_disk (n : nat) : option refusal :=
  if Nat.eqb n 1 then Some (WriteFails "[Errno 28] No space left on device" [])
  else None.

(** * Properties *)

(** ** Strings *)

Lemma prefix_cons (a b : ascii) (s t : string) :
  String.prefix (String a s) (String b t) = Ascii.eqb a b && String.prefix s t.
Proof.
  simpl. destruct (ascii_dec a b) as [e | n].
  - subst. now rewrite Ascii.eqb_refl.
  - apply Ascii.eqb_neq in n. now rewrite n.
Qed.

Lemma prefix_nil (s : string) : String.prefix EmptyString s = true.
Proof. now destruct s. Qed.

Lemma prefix_app (a b : string) : String.prefix a (a ++ b) = true.
Proof.
  induction a as [| c a IH]; simpl.
  - apply prefix_nil.
  - destruct (ascii_dec c c); [exact IH | contradiction].
Qed.



Lemma startswith_app (a b : string) : Py.startswith (a ++ b) a = true.
Proof. apply prefix_app. Qed.

Lemma append_assoc (a b c : string) : ((a ++ b) ++ c = a ++ (b ++ c))%string.
Proof. induction a; simpl; congruence. Qed.

(** ** Glob matching *)

Lemma fnmatch_star_only (name : string) : Fnmatch.fnmatch name "*" = true.
Proof.
  unfold Fnmatch.fnmatch. induction name as [| c name IH].
  - reflexivity.
  - simpl in *. exact IH.
Qed.

Lemma fnmatch_pat_star (pat name : string) :
  Fnmatch.fnmatch_pat (String Fnmatch.star pat) name
  = Fnmatch.fnmatch_pat pat name
    || match name with
       | EmptyString => false
       | String _ name' => Fnmatch.fnmatch_pat (String Fnmatch.star pat) name'
       end.
Proof. destruct name; reflexivity. Qed.

Lemma fnmatch_pat_char (p : ascii) (pat name : string) :
  Ascii.eqb p Fnmatch.star = false ->
  Ascii.eqb p Fnmatch.qmark = false ->
  Fnmatch.fnmatch_pat (String p pat) name
  = match name with
    | EmptyString => false
    | String c name' => Ascii.eqb p c && Fnmatch.fnmatch_pat pat name'
    end.
Proof. intros Hs Hq. cbn [Fnmatch.fnmatch_pat]. now rewrite Hs, Hq. Qed.

(** A literal followed by [*] matches exactly the names the literal starts. *)
Lemma fnmatch_literal_star (lit : string) :
  literal lit = true ->
  forall name, Fnmatch.fnmatch name (lit ++ "*") = Py.startswith name lit.
Proof.
  unfold Fnmatch.fnmatch, Py.startswith.
  induction lit as [| p lit IH]; intros Hlit name.
  - rewrite prefix_nil. apply fnmatch_star_only.
  - cbn [literal] in Hlit.
    apply andb_true_iff in Hlit as [Hp Hlit].
    apply andb_true_iff in Hp as [Hs Hq].
    apply negb_true_iff in Hs, Hq.
    change (String p lit ++ "*")%string with (String p (lit ++ "*")).
    rewrite (fnmatch_pat_char _ _ _ Hs Hq).
    destruct name as [| c name]; [reflexivity |].
    now rewrite prefix_cons, IH.
Qed.

Lemma fnmatch_env_star (s : string) :
  Fnmatch.fnmatch s "env/*" = Py.startswith s "env/".
Proof. apply (fnmatch_literal_star "env/"). reflexivity. Qed.

Example should_ignore_path_examples :
  should_ignore_path "node_modules/x.js" = true
  /\ should_ignore_path ".git/config" = true
  /\ should_ignore_path "src/main.go" = false
  /\ should_ignore_path "readme.md" = false.
Proof. repeat split; reflexivity. Qed.

(** ** The claims *)

(** C1 (the code departs from the claim).  The ignore list has no entry
    ['*.pdf']: the literal is fused with ['.DS_Store'] before it into the one
    pattern ['.DS_Store*.pdf'], so the bare file name [report.pdf] is not
    ignored, while a name such as [.DS_Storex.pdf] is. *)
Theorem C1_pdf_pattern_fused :
  ~ In "*.pdf" ignore_patterns
  /\ In ".DS_Store*.pdf" ignore_patterns
  /\ Fnmatch.fnmatch "report.pdf" "*.pdf" = true
  /\ should_ignore_path "report.pdf" = false
  /\ should_ignore_path ".DS_Storex.pdf" = true.
Proof.
  repeat split; try reflexivity.
  - intro H. unfold ignore_patterns in H. simpl in H.
    repeat (destruct H as [H | H]; [discriminate H |]). exact H.
  - unfold ignore_patterns. simpl. tauto.
Qed.

(** C2 (the code departs from the claim).  The directory filter tests the
    bare name [node_modules], which no pattern matches, so the directory is
    walked; below the top level its files match no pattern either, and
    [sub/node_modules/readme.md] is collected.  Only directly under the root
    does the file test ['node_modules/*'] exclude them. *)
Theorem C2_nested_ignored_directory_collected :
  should_ignore_path "node_modules" = false
  /\ get_files_from_directory "/proj" nested_node_modules []
     = [("sub/node_modules/readme.md", "/proj/sub/node_modules/readme.md")]
  /\ get_files_from_directory "/proj" top_node_modules []
     = [("readme.md", "/proj/readme.md")].
Proof. repeat split; reflexivity. Qed.

(** C5, as stated, fails: [*] runs across separators, and ['env/*'] matches
    [env/a/b], two segments below [env]. *)
Lemma C5_star_crosses_separator :
  Fnmatch.fnmatch "env/a/b" "env/*" = true
  /\ should_ignore_path "env/a/b" = true.
Proof. split; reflexivity. Qed.

(** C5, amended.  Each pattern is matched against the whole input string and
    [*] matches any run of characters, separators included: ['env/*']
    matches exactly the strings that start with [env/], whatever follows,
    and [should_ignore_path] is true of every one of them. *)
Theorem C5_env_star_matches_any_depth (s : string) :
  Fnmatch.fnmatch s "env/*" = Py.startswith s "env/"
  /\ Fnmatch.fnmatch ("env/" ++ s) "env/*" = true
  /\ should_ignore_path ("env/" ++ s) = true.
Proof.
  assert (H : Fnmatch.fnmatch ("env/" ++ s) "env/*" = true)
    by (rewrite fnmatch_env_star; apply startswith_app).
  repeat split.
  - apply fnmatch_env_star.
  - exact H.
  - unfold should_ignore_path, ignore_patterns.
    cbn [existsb]. now rewrite H.
Qed.

(** ** Binary Detector and Content Extractor *)

Section Readers.

Variable guess_type : string -> option string.

Ltac run_io :=
  unfold is_binary_file, extract_file_content, bind, try_except, open_file,
    read_bytes, read_text, ret; cbn [h_state h_path].

(** What the detector answers from the content alone: the null-byte sniff of
    the first 1024 bytes, or [true] when the file cannot be opened or read. *)
Lemma is_binary_file_untyped (file_path : string) (w : fs) :
  Py.truthy (guess_type file_path) = false ->
  is_binary_file guess_type file_path w
  = match w file_path with
    | Readable data =>
      (Py.Ret (Py.has_null (firstn 1024 data)),
       [EvOpen file_path RB; EvRead file_path (Some 1024)])
    | CannotRead _ =>
      (Py.Ret true, [EvOpen file_path RB; EvRead file_path (Some 1024)])
    | CannotOpen _ => (Py.Ret true, [EvOpen file_path RB])
    end.
Proof.
  intros Hg. run_io. rewrite Hg. now destruct (w file_path).
Qed.

Lemma is_binary_file_typed (file_path t : string) (w : fs) :
  guess_type file_path = Some t -> t <> "" ->
  is_binary_file guess_type file_path w
  = (Py.Ret (negb (Py.startswith t "text/")), []).
Proof.
  intros Hg Ht. run_io. rewrite Hg.
  destruct t as [| c t]; [contradiction | reflexivity].
Qed.

Lemma is_binary_file_total (file_path : string) (w : fs) :
  exists b tr, is_binary_file guess_type file_path w = (Py.Ret b, tr).
Proof.
  destruct (Py.truthy (guess_type file_path)) eqn:Hg.
  - destruct (guess_type file_path) as [[| c t] |] eqn:Ht; try discriminate.
    rewrite (is_binary_file_typed _ (String c t)); [eauto | exact Ht | discriminate].
  - rewrite is_binary_file_untyped by exact Hg.
    destruct (w file_path); eauto.
Qed.


Lemma extract_file_content_cases (file_path : string) (w : fs) (b : bool)
    (tr : list event) :
  is_binary_file guess_type file_path w = (Py.Ret b, tr) ->
  extract_file_content guess_type file_path w
  = if b then (Py.Ret (skipped_binary file_path), tr)
    else (Py.Ret (text_or_placeholder file_path (w file_path)),
          (tr ++ text_trace file_path (w file_path))%list).
Proof.
  intros Hb. unfold extract_file_content, bind. rewrite Hb.
  destruct b.
  - unfold ret. now rewrite app_nil_r.
  - unfold try_except, bind, open_file, read_text, ret, text_or_placeholder,
      text_trace, Py.decode_utf8.
    destruct (w file_path) as [msg | msg | data]; cbn [h_state h_path];
      try reflexivity.
    destruct (Py.utf8_valid data); reflexivity.
Qed.

Lemma extract_file_content_total (file_path : string) (w : fs) :
  exists s tr, extract_file_content guess_type file_path w = (Py.Ret s, tr).
Proof.
  destruct (is_binary_file_total file_path w) as (b & tr & Hb).
  rewrite (extract_file_content_cases _ _ _ _ Hb). destruct b; eauto.
Qed.

(** C6, amended.  [extract_file_content] never raises and always returns a
    string: the skipped-binary placeholder naming the path, with nothing
    opened beyond what the detector did, when the detector flags the file;
    otherwise the UTF-8 decoded content with every CR LF and every lone CR
    turned into LF when the bytes decode; the not-valid-UTF-8 placeholder
    when they do not; and the placeholder with the error's text when the
    file cannot be opened or read. *)
Theorem C6_extract_file_content_total (file_path : string) (w : fs) :
  (exists s tr, extract_file_content guess_type file_path w = (Py.Ret s, tr))
  /\ (forall tr, is_binary_file guess_type file_path w = (Py.Ret true, tr) ->
        extract_file_content guess_type file_path w
        = (Py.Ret ("[Skipped binary file: " ++ file_path ++ "]"), tr))
  /\ (forall tr, is_binary_file guess_type file_path w = (Py.Ret false, tr) ->
      (forall data, w file_path = Readable data -> Py.utf8_valid data = true ->
         extract_file_content guess_type file_path w
         = (Py.Ret (Py.universal_newlines (string_of_list_byte data)),
            (tr ++ [EvOpen file_path RText; EvRead file_path None])%list))
      /\ (forall data, w file_path = Readable data -> Py.utf8_valid data = false ->
         fst (extract_file_content guess_type file_path w)
         = Py.Ret ("[Skipped: File " ++ file_path ++ " is not valid UTF-8 text]"))
      /\ (forall msg, w file_path = CannotOpen msg \/ w file_path = CannotRead msg ->
         fst (extract_file_content guess_type file_path w)
         = Py.Ret ("[Error reading file " ++ file_path ++ ": " ++ msg ++ "]"))).
Proof.
  split; [apply extract_file_content_total |].
  split.
  - intros tr Hb. now rewrite (extract_file_content_cases _ _ _ _ Hb).
  - intros tr Hb. rewrite (extract_file_content_cases _ _ _ _ Hb).
    repeat split.
    + intros data Hd Hv. rewrite Hd. cbn. now rewrite Hv.
    + intros data Hd Hv. rewrite Hd. cbn. now rewrite Hv.
    + intros msg [Hm | Hm]; rewrite Hm; reflexivity.
Qed.

End Readers.

(** ** Sorting *)

Section SortFacts.

Context {A : Type} (leb : A -> A -> bool).
Hypothesis leb_total : forall a b, leb a b = true \/ leb b a = true.
Hypothesis leb_trans : forall a b c, leb a b = true -> leb b c = true -> leb a c = true.
Hypothesis leb_antisym : forall a b, leb a b = true -> leb b a = true -> a = b.

Let le (a b : A) : Prop := leb a b = true.

Lemma insert_perm (x : A) (l : list A) :
  Permutation (Sorted.insert leb x l) (x :: l).
Proof.
  induction l as [| y l IH]; simpl.
  - apply Permutation_refl.
  - destruct (leb x y).
    + apply Permutation_refl.
    + eapply perm_trans; [apply perm_skip, IH | apply perm_swap].
Qed.

Lemma sorted_perm (l : list A) : Permutation (Sorted.sorted leb l) l.
Proof.
  induction l as [| x l IH]; simpl.
  - apply perm_nil.
  - eapply perm_trans; [apply insert_perm | apply perm_skip, IH].
Qed.

Lemma insert_sorted (x : A) (l : list A) :
  StronglySorted le l -> StronglySorted le (Sorted.insert leb x l).
Proof.
  induction 1 as [| y l Hs IH Hy]; simpl.
  - constructor; constructor.
  - destruct (leb x y) eqn:Hxy.
    + constructor; [constructor; assumption |].
      constructor; [exact Hxy |].
      eapply Forall_impl; [| exact Hy].
      intros z Hz. unfold le in *. eauto.
    + constructor; [exact IH |].
      assert (Hyx : le y x)
        by (destruct (leb_total x y) as [H | H]; [congruence | exact H]).
      eapply Permutation_Forall; [apply Permutation_sym, insert_perm |].
      constructor; assumption.
Qed.

Lemma sorted_sorted (l : list A) : StronglySorted le (Sorted.sorted leb l).
Proof.
  induction l as [| x l IH]; simpl.
  - constructor.
  - apply insert_sorted, IH.
Qed.

Lemma sorted_unique (l l' : list A) :
  StronglySorted le l -> StronglySorted le l' -> Permutation l l' -> l = l'.
Proof.
  intros Hl. revert l'.
  induction Hl as [| a l Hs IH Ha]; intros l' Hl' Hp.
  - apply Permutation_nil in Hp. now subst.
  - destruct l' as [| b l'].
    + apply Permutation_sym, Permutation_nil in Hp. discriminate.
    + apply StronglySorted_inv in Hl' as [Hs' Hb].
      assert (Hab : a = b).
      { assert (Hin : In a (b :: l'))
          by (eapply Permutation_in; [exact Hp | now left]).
        assert (Hin' : In b (a :: l))
          by (eapply Permutation_in; [apply Permutation_sym, Hp | now left]).
        destruct Hin as [-> | Hin]; [reflexivity |].
        destruct Hin' as [-> | Hin']; [reflexivity |].
        rewrite Forall_forall in Ha, Hb.
        apply leb_antisym; [apply Ha, Hin' | apply Hb, Hin]. }
      subst b. f_equal.
      apply IH; [exact Hs' | eapply Permutation_cons_inv, Hp].
Qed.

(** The sorted list depends on the elements only, not on their order. *)
Lemma sorted_perm_eq (l l' : list A) :
  Permutation l l' -> Sorted.sorted leb l = Sorted.sorted leb l'.
Proof.
  intros Hp. apply sorted_unique; try apply sorted_sorted.
  eapply perm_trans; [apply sorted_perm |].
  eapply perm_trans; [exact Hp | apply Permutation_sym, sorted_perm].
Qed.

End SortFacts.

(** ** The order of strings and of items *)

Lemma ascii_compare_refl (x : ascii) : Ascii.compare x x = Eq.
Proof. apply N.compare_refl. Qed.

Lemma ascii_compare_lt_trans (x y z : ascii) :
  Ascii.compare x y = Lt -> Ascii.compare y z = Lt -> Ascii.compare x z = Lt.
Proof.
  unfold Ascii.compare. rewrite !N.compare_lt_iff. apply N.lt_trans.
Qed.

Lemma str_compare_refl (s : string) : String.compare s s = Eq.
Proof.
  induction s as [| c s IH]; simpl; [reflexivity |].
  now rewrite ascii_compare_refl.
Qed.

Lemma str_compare_lt_trans (a b c : string) :
  String.compare a b = Lt -> String.compare b c = Lt -> String.compare a c = Lt.
Proof.
  revert b c. induction a as [| x a IH]; intros [| y b] [| z c]; simpl;
    try easy.
  destruct (Ascii.compare x y) eqn:Exy, (Ascii.compare y z) eqn:Eyz;
    try discriminate; intros H1 H2.
  - apply Ascii.compare_eq_iff in Exy, Eyz. subst.
    rewrite ascii_compare_refl. eauto.
  - apply Ascii.compare_eq_iff in Exy. subst. now rewrite Eyz.
  - apply Ascii.compare_eq_iff in Eyz. subst. now rewrite Exy.
  - now rewrite (ascii_compare_lt_trans _ _ _ Exy Eyz).
Qed.

Lemma str_compare_gt_lt (a b : string) :
  String.compare a b = Gt -> String.compare b a = Lt.
Proof. rewrite (String.compare_antisym b a). now intros ->. Qed.

Lemma str_leb_total (a b : string) :
  Sorted.str_leb a b = true \/ Sorted.str_leb b a = true.
Proof. apply String.leb_total. Qed.

Lemma str_leb_antisym (a b : string) :
  Sorted.str_leb a b = true -> Sorted.str_leb b a = true -> a = b.
Proof. apply String.leb_antisym. Qed.

Lemma str_leb_trans (a b c : string) :
  Sorted.str_leb a b = true -> Sorted.str_leb b c = true ->
  Sorted.str_leb a c = true.
Proof.
  unfold Sorted.str_leb, String.leb.
  destruct (String.compare a b) eqn:Eab; try discriminate;
    destruct (String.compare b c) eqn:Ebc; try discriminate; intros _ _.
  - apply String.compare_eq_iff in Eab, Ebc. subst.
    now rewrite str_compare_refl.
  - apply String.compare_eq_iff in Eab. subst. now rewrite Ebc.
  - apply String.compare_eq_iff in Ebc. subst. now rewrite Eab.
  - now rewrite (str_compare_lt_trans _ _ _ Eab Ebc).
Qed.

Lemma tuple_leb_total (a b : string * string) :
  Sorted.tuple_leb a b = true \/ Sorted.tuple_leb b a = true.
Proof.
  unfold Sorted.tuple_leb.
  rewrite (String.compare_antisym (fst b) (fst a)).
  destruct (String.compare (fst a) (fst b)); simpl; auto.
  apply String.leb_total.
Qed.

Lemma tuple_leb_antisym (a b : string * string) :
  Sorted.tuple_leb a b = true -> Sorted.tuple_leb b a = true -> a = b.
Proof.
  unfold Sorted.tuple_leb.
  rewrite (String.compare_antisym (fst b) (fst a)).
  destruct a as [a1 a2], b as [b1 b2]; simpl.
  destruct (String.compare a1 b1) eqn:E; simpl; try discriminate.
  apply String.compare_eq_iff in E. subst.
  intros H1 H2. f_equal. now apply String.leb_antisym.
Qed.

Lemma tuple_leb_trans (a b c : string * string) :
  Sorted.tuple_leb a b = true -> Sorted.tuple_leb b c = true ->
  Sorted.tuple_leb a c = true.
Proof.
  unfold Sorted.tuple_leb.
  destruct a as [a1 a2], b as [b1 b2], c as [c1 c2]; simpl.
  destruct (String.compare a1 b1) eqn:Eab; try discriminate;
    destruct (String.compare b1 c1) eqn:Ebc; try discriminate; intros H1 H2.
  - apply String.compare_eq_iff in Eab, Ebc. subst.
    rewrite str_compare_refl. eapply str_leb_trans; eassumption.
  - apply String.compare_eq_iff in Eab. subst. now rewrite Ebc.
  - apply String.compare_eq_iff in Ebc. subst. now rewrite Eab.
  - now rewrite (str_compare_lt_trans _ _ _ Eab Ebc).
Qed.

(** Items of a dictionary come out of [sorted] in one order only. *)
Lemma sorted_items_perm (d d' : Dict.dict) :
  Permutation d d' ->
  Sorted.sorted Sorted.tuple_leb d = Sorted.sorted Sorted.tuple_leb d'.
Proof.
  apply sorted_perm_eq.
  - apply tuple_leb_total.
  - apply tuple_leb_trans.
  - apply tuple_leb_antisym.
Qed.

(** ** Dictionaries *)

Lemma dict_get_set_same (k v : string) (d : Dict.dict) :
  Dict.get k (Dict.set k v d) = Some v.
Proof.
  induction d as [| [k' v'] d IH]; simpl.
  - now rewrite String.eqb_refl.
  - destruct (String.eqb k' k) eqn:E; simpl; now rewrite E.
Qed.

Lemma dict_get_set_other (k k' v : string) (d : Dict.dict) :
  k' <> k -> Dict.get k' (Dict.set k v d) = Dict.get k' d.
Proof.
  intros Hne. induction d as [| [k0 v0] d IH]; simpl.
  - apply String.eqb_neq in Hne. now rewrite String.eqb_sym, Hne.
  - destruct (String.eqb k0 k) eqn:E; simpl.
    + apply String.eqb_eq in E. subst k0.
      apply String.eqb_neq in Hne. now rewrite String.eqb_sym, Hne.
    + now rewrite IH.
Qed.

Lemma dict_get_none (k : string) (d : Dict.dict) :
  Dict.get k d = None <-> ~ In k (Dict.keys d).
Proof.
  induction d as [| [k' v'] d IH]; simpl.
  - tauto.
  - destruct (String.eqb_spec k' k) as [-> | Hne].
    + split; [discriminate | tauto].
    + rewrite IH. tauto.
Qed.

Lemma dict_keys_set (k v : string) (d : Dict.dict) :
  Dict.keys (Dict.set k v d)
  = if Py.str_in k (Dict.keys d) then Dict.keys d else (Dict.keys d ++ [k])%list.
Proof.
  unfold Py.str_in.
  induction d as [| [k' v'] d IH]; simpl; [reflexivity |].
  rewrite (String.eqb_sym k k').
  destruct (String.eqb k' k); simpl; [reflexivity |].
  rewrite IH. now destruct (existsb (String.eqb k) (Dict.keys d)).
Qed.

Lemma str_in_spec (x : string) (l : list string) :
  Py.str_in x l = true <-> In x l.
Proof.
  unfold Py.str_in. rewrite existsb_exists. split.
  - intros (y & Hy & E). apply String.eqb_eq in E. now subst.
  - intros H. exists x. split; [exact H | apply String.eqb_refl].
Qed.

Lemma dict_set_nodup (k v : string) (d : Dict.dict) :
  NoDup (Dict.keys d) -> NoDup (Dict.keys (Dict.set k v d)).
Proof.
  intros Hd. rewrite dict_keys_set.
  destruct (Py.str_in k (Dict.keys d)) eqn:E; [exact Hd |].
  apply NoDup_app; [exact Hd | repeat constructor; intros [] |].
  intros x Hx [<- | []].
  apply str_in_spec in Hx. congruence.
Qed.


Lemma dict_update_nodup (d e : Dict.dict) :
  NoDup (Dict.keys d) -> NoDup (Dict.keys (Dict.update d e)).
Proof.
  unfold Dict.update. revert d.
  induction e as [| [k v] e IH]; intros d Hd; simpl; [exact Hd |].
  apply IH, dict_set_nodup, Hd.
Qed.

Lemma dict_get_update_absent (k : string) (d e : Dict.dict) :
  Dict.get k e = None -> Dict.get k (Dict.update d e) = Dict.get k d.
Proof.
  unfold Dict.update. revert d.
  induction e as [| [k' v'] e IH]; intros d He; simpl in *; [reflexivity |].
  destruct (String.eqb_spec k' k) as [-> | Hne]; [discriminate |].
  rewrite IH by exact He. apply dict_get_set_other. congruence.
Qed.

(** After [d.update(e)] every key of [e] has the value [e] gives it. *)
Lemma dict_get_update_present (k v : string) (d e : Dict.dict) :
  NoDup (Dict.keys e) ->
  Dict.get k e = Some v -> Dict.get k (Dict.update d e) = Some v.
Proof.
  unfold Dict.update. revert d.
  induction e as [| [k' v'] e IH]; intros d Hnd He; simpl in *; [discriminate |].
  inversion Hnd as [| ? ? Hnotin Hnd']; subst.
  destruct (String.eqb_spec k' k) as [-> | Hne].
  - injection He as ->.
    fold (Dict.update (Dict.set k v d) e).
    rewrite dict_get_update_absent by now apply dict_get_none.
    apply dict_get_set_same.
  - now apply IH.
Qed.

(** ** Tree Collector *)

Lemma add_files_nodup (root : string) (below ign names : list string)
    (fd : Dict.dict) :
  NoDup (Dict.keys fd) ->
  NoDup (Dict.keys (add_files root below ign names fd)).
Proof.
  revert fd. induction names as [| f names IH]; intros fd Hfd; simpl.
  - exact Hfd.
  - destruct (negb _ && negb _); apply IH; [apply dict_set_nodup |]; exact Hfd.
Qed.

Lemma walk_nodup (t : tree) :
  forall root below ign fd,
    NoDup (Dict.keys fd) -> NoDup (Dict.keys (walk t root below ign fd)).
Proof.
  induction t using tree_forest_ind with
    (P0 := fun ds => forall root below ign fd,
             NoDup (Dict.keys fd) ->
             NoDup (Dict.keys (walk_dirs ds root below ign fd)));
    intros root below ign fd Hfd; simpl.
  - apply IHt, add_files_nodup, Hfd.
  - exact Hfd.
  - destruct (should_ignore_path name); apply IHt0; [| apply IHt]; exact Hfd.
Qed.

Lemma get_files_from_directory_nodup (directory_path : string) (t : tree)
    (ign : list string) :
  NoDup (Dict.keys (get_files_from_directory directory_path t ign)).
Proof. apply walk_nodup. constructor. Qed.

(** ** Merging uploads and directory *)

Section Merge.

Variable gettempdir : string.
Variable tmp_suffix : nat -> string.

Lemma store_uploads_nodup (ups : list (string * list byte)) (w : world)
    (d : Dict.dict) :
  NoDup (Dict.keys d) ->
  NoDup (Dict.keys (snd (store_uploads gettempdir tmp_suffix ups w d))).
Proof.
  revert w d. induction ups as [| [name value] ups IH]; intros w d Hd; simpl.
  - exact Hd.
  - apply IH, dict_set_nodup, Hd.
Qed.

(** C7.  The keys of the merged mapping are distinct; assigning to a key
    that is present overwrites its value and keeps the keys distinct; and
    since the directory's entries are merged after the uploads, a name found
    in the directory is bound to the directory's path, whatever an upload of
    that name had stored, while every other name keeps the upload's entry. *)
Theorem C7_merge_last_wins (inp : inputs) (w : world) :
  let uploads := snd (store_uploads gettempdir tmp_suffix (uploaded_files inp) w []) in
  let merged := snd (merge_sources gettempdir tmp_suffix inp w) in
  NoDup (Dict.keys merged)
  /\ (forall d k v v',
        NoDup (Dict.keys d) ->
        NoDup (Dict.keys (Dict.set k v' (Dict.set k v d)))
        /\ Dict.get k (Dict.set k v' (Dict.set k v d)) = Some v')
  /\ (forall t name,
        uploaded_dir inp <> "" -> dir_on_disk inp = Some t ->
        let found := get_files_from_directory (uploaded_dir inp) t [] in
        match Dict.get name found with
        | Some path => Dict.get name merged = Some path
        | None => Dict.get name merged = Dict.get name uploads
        end).
Proof.
  cbv zeta. unfold merge_sources.
  destruct (store_uploads gettempdir tmp_suffix (uploaded_files inp) w [])
    as [w1 d1] eqn:Hup.
  assert (Hd1 : NoDup (Dict.keys d1)).
  { change d1 with (snd (w1, d1)). rewrite <- Hup.
    apply store_uploads_nodup. constructor. }
  repeat split.
  - destruct (uploaded_dir inp), (dir_on_disk inp); simpl; try exact Hd1.
    apply dict_update_nodup, Hd1.
  - now repeat apply dict_set_nodup.
  - apply dict_get_set_same.
  - intros t name Hdir Ht. rewrite Ht.
    destruct (uploaded_dir inp) as [| c dir] eqn:Hd; [contradiction |].
    cbn [snd].
    destruct (Dict.get name _) as [path |] eqn:Hg.
    + apply dict_get_update_present;
        [apply get_files_from_directory_nodup | exact Hg].
    + now apply dict_get_update_absent.
Qed.

End Merge.

(** ** Generation *)

Lemma delimiter_format (file_name : string) :
  delimiter file_name
  = (equals 20 ++ " " ++ file_name ++ " " ++ equals 20 ++ Py.NL)%string.
Proof. reflexivity. Qed.

Lemma filter_strongly_sorted {A : Type} (R : A -> A -> Prop) (f : A -> bool)
    (l : list A) :
  StronglySorted R l -> StronglySorted R (filter f l).
Proof.
  induction 1 as [| a l Hs IH Ha]; simpl; [constructor |].
  destruct (f a); [| exact IH].
  constructor; [exact IH |].
  rewrite Forall_forall in *. intros x Hx.
  apply filter_In in Hx as [Hx _]. auto.
Qed.

Lemma filter_keys_nodup (f : string * string -> bool) (d : Dict.dict) :
  NoDup (Dict.keys d) -> NoDup (Dict.keys (filter f d)).
Proof.
  unfold Dict.keys.
  induction d as [| kv d IH]; simpl; intros Hd; [constructor |].
  inversion Hd as [| ? ? Hnotin Hd']; subst.
  destruct (f kv); simpl; [| auto].
  constructor; [| auto].
  intros Hin. apply Hnotin.
  apply in_map_iff in Hin as (y & Hy & Hin).
  apply filter_In in Hin as [Hin _].
  apply in_map_iff. eauto.
Qed.

(** Items sorted as pairs and with distinct keys ascend strictly by key. *)
Lemma sorted_items_strict (l : Dict.dict) :
  StronglySorted (fun a b => Sorted.tuple_leb a b = true) l ->
  NoDup (Dict.keys l) ->
  StronglySorted (fun a b => String.compare (fst a) (fst b) = Lt) l.
Proof.
  induction 1 as [| a l Hs IH Ha]; intros Hnd; [constructor |].
  inversion Hnd as [| ? ? Hnotin Hnd']; subst.
  constructor; [auto |].
  rewrite Forall_forall in *. intros b Hb.
  specialize (Ha b Hb). unfold Sorted.tuple_leb in Ha.
  destruct (String.compare (fst a) (fst b)) eqn:E; try discriminate;
    [| reflexivity].
  apply String.compare_eq_iff in E. exfalso. apply Hnotin.
  rewrite E. now apply in_map.
Qed.

Lemma concat_cons_nonempty (sep x : string) (l : list string) :
  l <> [] -> String.concat sep (x :: l) = (x ++ sep ++ String.concat sep l)%string.
Proof. destruct l; [contradiction | reflexivity]. Qed.

Section Generation.

Variable guess_type : string -> option string.

Lemma combine_pieces (items : list (string * string)) (ign acc : list string)
    (w : fs) :
  exists tr,
    combine guess_type items ign acc w
    = (Py.Ret (acc ++ flat_map (pieces guess_type w) (filter (included ign) items))%list, tr).
Proof.
  revert acc. induction items as [| [name path] items IH]; intros acc.
  - exists []. simpl. unfold ret. now rewrite app_nil_r.
  - cbn [combine filter]. unfold included at 1. cbn [fst].
    destruct (Py.str_in name ign); cbn [negb]; [apply IH |].
    unfold bind.
    destruct (extract_file_content_total guess_type path w) as (s & tr & Hs).
    rewrite Hs.
    destruct (IH (acc ++ [delimiter name] ++ [(s ++ Py.NL ++ Py.NL)%string])%list)
      as (tr' & Htr').
    rewrite Htr'. exists (tr ++ tr')%list.
    cbn [flat_map].
    change (pieces guess_type w (name, path))
      with [delimiter name; (extracted guess_type w path ++ Py.NL ++ Py.NL)%string].
    unfold extracted. rewrite Hs. cbn [fst].
    now rewrite <- !app_assoc.
Qed.

Lemma join_pieces (w : fs) (items : list (string * string)) :
  Py.join Py.NL (flat_map (pieces guess_type w) items) = Py.join Py.NL (map (block guess_type w) items).
Proof.
  unfold Py.join.
  assert (Hb : forall item,
             block guess_type w item
             = (delimiter (fst item) ++ Py.NL
                ++ extracted guess_type w (snd item) ++ Py.NL ++ Py.NL)%string).
  { intros item. unfold block. rewrite delimiter_format.
    now rewrite !append_assoc. }
  induction items as [| item items IH]; [reflexivity |].
  change (flat_map (pieces guess_type w) (item :: items))
    with (delimiter (fst item)
          :: (extracted guess_type w (snd item) ++ Py.NL ++ Py.NL)%string
          :: flat_map (pieces guess_type w) items).
  change (map (block guess_type w) (item :: items))
    with (block guess_type w item :: map (block guess_type w) items).
  rewrite (concat_cons_nonempty _ (delimiter (fst item))) by discriminate.
  destruct items as [| item' items].
  - cbn [flat_map map String.concat]. apply eq_sym, Hb.
  - rewrite !concat_cons_nonempty by discriminate.
    rewrite IH, Hb. now rewrite !append_assoc.
Qed.

Lemma generate_blocks (d : Dict.dict) (ign : list string) (w : fs) :
  exists tr,
    generate guess_type d ign w
    = (Py.Ret (Py.join Py.NL
                 (map (block guess_type w)
                      (filter (included ign) (Sorted.sorted Sorted.tuple_leb d)))),
       tr).
Proof.
  unfold generate, bind.
  destruct (combine_pieces (Sorted.sorted Sorted.tuple_leb d) ign [] w)
    as (tr & Htr).
  rewrite Htr. unfold ret. exists (tr ++ [])%list.
  now rewrite app_nil_l, join_pieces.
Qed.

(** C8.  The output is the blocks of the files that are not excluded, one
    each, joined by a line end, in ascending order of their names whatever
    the order of discovery; a block starts with the delimiter line (20
    equals signs, a space, the name, a space, 20 equals signs) and an empty
    line and ends with an empty line. *)
Theorem C8_combined_output (d : Dict.dict) (ign : list string) (w : fs) :
  NoDup (Dict.keys d) ->
  exists items tr,
    generate guess_type d ign w
    = (Py.Ret (Py.join Py.NL (map (block guess_type w) items)), tr)
    /\ Permutation items (filter (included ign) d)
    /\ StronglySorted (fun a b => String.compare (fst a) (fst b) = Lt) items
    /\ forall d', Permutation d d' ->
         generate guess_type d' ign w = generate guess_type d ign w.
Proof.
  intros Hd.
  destruct (generate_blocks d ign w) as (tr & Htr).
  exists (filter (included ign) (Sorted.sorted Sorted.tuple_leb d)), tr.
  assert (Hp : Permutation (Sorted.sorted Sorted.tuple_leb d) d)
    by apply sorted_perm.
  repeat split.
  - exact Htr.
  - clear -Hp. induction Hp; simpl;
      repeat match goal with |- context [included ?i ?x] => destruct (included i x) end;
      eauto using Permutation.
  - apply sorted_items_strict.
    + apply filter_strongly_sorted, sorted_sorted.
      * apply tuple_leb_total.
      * apply tuple_leb_trans.
    + apply filter_keys_nodup.
      eapply Permutation_NoDup; [| exact Hd].
      apply Permutation_map, Permutation_sym, Hp.
  - intros d' Hp'. unfold generate.
    now rewrite (sorted_items_perm d d' Hp').
Qed.

End Generation.

(** ** Two uploads *)

Section TwoFiles.

Variable guess_type : string -> option string.


Lemma extracted_unflagged (w : fs) (file_path : string) :
  fst (is_binary_file guess_type file_path w) = Py.Ret false ->
  extracted guess_type w file_path = text_or_placeholder file_path (w file_path).
Proof.
  intros Hb. unfold extracted.
  destruct (is_binary_file guess_type file_path w) as [r tr] eqn:E.
  cbn [fst] in Hb. subst r.
  now rewrite (extract_file_content_cases guess_type file_path w false tr E).
Qed.

Lemma extracted_flagged (w : fs) (file_path : string) :
  fst (is_binary_file guess_type file_path w) = Py.Ret true ->
  extracted guess_type w file_path = skipped_binary file_path.
Proof.
  intros Hb. unfold extracted.
  destruct (is_binary_file guess_type file_path w) as [r tr] eqn:E.
  cbn [fst] in Hb. subst r.
  now rewrite (extract_file_content_cases guess_type file_path w true tr E).
Qed.

(** C4, amended.  When the mapping has the two entries [a.txt] and [b.bin],
    [a.txt] holding [hello] under a path the detector does not flag (a
    temporary copy, or a file whose type is text) and [b.bin] bytes that
    are not valid UTF-8, and neither is excluded, the output is two blocks,
    [a.txt] then [b.bin]: the first holds [hello], the second a placeholder
    that names the stored path of [b.bin], the skipped-binary one when the
    detector flags that path (for a temporary copy: when a null byte is
    among the first 1024 bytes) and the not-valid-UTF-8 one otherwise. *)
Theorem C4_two_entries_output (d : Dict.dict) (pa pb : string)
    (data : list byte) (ign : list string) (w : fs) :
  Permutation d [("a.txt", pa); ("b.bin", pb)] ->
  fst (is_binary_file guess_type pa w) = Py.Ret false ->
  w pa = Readable (bytes_of "hello") ->
  w pb = Readable data ->
  Py.utf8_valid data = false ->
  Py.str_in "a.txt" ign = false ->
  Py.str_in "b.bin" ign = false ->
  exists flagged,
    fst (is_binary_file guess_type pb w) = Py.Ret flagged
    /\ (Py.truthy (guess_type pb) = false ->
        flagged = Py.has_null (firstn 1024 data))
    /\ fst (generate guess_type d ign w)
       = Py.Ret (delimiter "a.txt" ++ Py.NL ++ "hello" ++ Py.NL ++ Py.NL
                 ++ Py.NL
                 ++ delimiter "b.bin" ++ Py.NL
                 ++ (if flagged
                     then "[Skipped binary file: " ++ pb ++ "]"
                     else "[Skipped: File " ++ pb ++ " is not valid UTF-8 text]")
                 ++ Py.NL ++ Py.NL).
Proof.
  intros Hp Hfa Ha Hb Hv Hia Hib.
  destruct (is_binary_file_total guess_type pb w) as (flagged & trb & Hfb).
  exists flagged.
  split; [now rewrite Hfb |].
  split.
  { intros Hg. rewrite is_binary_file_untyped in Hfb by exact Hg.
    rewrite Hb in Hfb. now injection Hfb as <- _. }
  destruct (generate_blocks guess_type d ign w) as (tr & Htr).
  rewrite Htr. cbn [fst]. f_equal.
  rewrite (sorted_items_perm d _ Hp).
  change (Sorted.sorted Sorted.tuple_leb [("a.txt", pa); ("b.bin", pb)])
    with [("a.txt", pa); ("b.bin", pb)].
  cbn [filter]. unfold included. cbn [fst]. rewrite Hia, Hib. cbn [negb map].
  unfold Py.join, block. cbn [fst snd String.concat].
  rewrite (extracted_unflagged w pa Hfa), Ha.
  assert (Hbody : extracted guess_type w pb
                  = if flagged then skipped_binary pb else not_utf8 pb).
  { destruct flagged.
    - apply extracted_flagged. now rewrite Hfb.
    - rewrite extracted_unflagged by now rewrite Hfb.
      rewrite Hb. cbn [text_or_placeholder]. now rewrite Hv. }
  rewrite Hbody.
  change (text_or_placeholder pa (Readable (bytes_of "hello"))) with "hello".
  rewrite delimiter_format, (delimiter_format "b.bin").
  unfold skipped_binary, not_utf8.
  destruct flagged; now rewrite !append_assoc.
Qed.

End TwoFiles.

(** ** Paths *)

Lemma has_char_cons (c x : ascii) (s : string) :
  Posixpath.has_char c (String x s) = Ascii.eqb c x || Posixpath.has_char c s.
Proof. reflexivity. Qed.

Lemma has_char_app (c : ascii) (a b : string) :
  Posixpath.has_char c (a ++ b) = Posixpath.has_char c a || Posixpath.has_char c b.
Proof.
  induction a as [| x a IH]; [reflexivity |].
  change (String x a ++ b)%string with (String x (a ++ b)).
  now rewrite !has_char_cons, IH, orb_assoc.
Qed.

(** Joining a relative name appends it, after a separator if one is missing. *)
Lemma join_relative (a b : string) :
  Posixpath.has_char Posixpath.sep b = false ->
  Posixpath.join a b
  = match a with
    | EmptyString => b
    | String _ _ =>
      if Posixpath.endswith_sep a then (a ++ b)%string else (a ++ "/" ++ b)%string
    end.
Proof.
  intros Hb. unfold Posixpath.join. destruct b as [| c b]; [reflexivity |].
  rewrite has_char_cons in Hb. apply orb_false_iff in Hb as [Hc _].
  rewrite Ascii.eqb_sym in Hc. now rewrite Hc.
Qed.

Lemma join_cases (a b : string) :
  Posixpath.has_char Posixpath.sep b = false ->
  Posixpath.join a b = (a ++ b)%string
  \/ Posixpath.join a b = (a ++ "/" ++ b)%string.
Proof.
  intros Hb. rewrite (join_relative a b Hb).
  destruct a as [| x a]; [now left |].
  destruct (Posixpath.endswith_sep (String x a)); [now left | now right].
Qed.

Lemma join_prefix (a b : string) :
  Posixpath.has_char Posixpath.sep b = false ->
  Py.startswith (Posixpath.join a b) a = true.
Proof.
  intros Hb. destruct (join_cases a b Hb) as [-> | ->]; apply startswith_app.
Qed.

Lemma entry_name_relative (name : string) :
  entry_name name = true -> Posixpath.has_char Posixpath.sep name = false.
Proof.
  unfold entry_name. intros H. apply andb_true_iff in H as [_ H].
  now apply negb_true_iff in H.
Qed.

(** ** What the walk stores *)

Section WalkPaths.

Variable top : string.




End WalkPaths.


Lemma dict_get_in_values (k v : string) (d : Dict.dict) :
  Dict.get k d = Some v -> In v (Dict.values d).
Proof.
  induction d as [| [k' v'] d IH]; simpl; [discriminate |].
  destruct (String.eqb k' k); [intros [= ->]; now left | auto].
Qed.

(** ** Cleanup *)

Section Cleanup.

Variable gettempdir : string.
Variable tmp_suffix : nat -> string.

Let temp (path : string) : bool := Py.startswith path gettempdir.


Lemma cleanup_cons (path : string) (rest : list string) (w : world) :
  cleanup gettempdir (path :: rest) w
  = if temp path then
      match unlink_failure w path with
      | Some msg =>
        (fst (cleanup gettempdir rest w),
         EvUnlink path
         :: EvError ("Error cleaning up temporary file: " ++ msg)
         :: snd (cleanup gettempdir rest w))
      | None =>
        (fst (cleanup gettempdir rest (snd (unlink path w))),
         EvUnlink path :: snd (cleanup gettempdir rest (snd (unlink path w))))
      end
    else cleanup gettempdir rest w.
Proof.
  cbn [cleanup]. fold (temp path). destruct (temp path); [| reflexivity].
  unfold unlink. destruct (unlink_failure w path) as [msg |]; cbn [snd];
    now destruct (cleanup gettempdir rest _).
Qed.

(** The paths handed to [os.unlink] are the stored paths that start with
    the temporary directory, each once per entry, in order, whether or not
    an earlier deletion failed. *)
Lemma cleanup_attempts (paths : list string) (w : world) :
  unlink_attempts (snd (cleanup gettempdir paths w)) = filter temp paths.
Proof.
  revert w. induction paths as [| path rest IH]; intros w; [reflexivity |].
  rewrite cleanup_cons. cbn [filter].
  destruct (temp path); [| apply IH].
  destruct (unlink_failure w path); cbn [snd unlink_attempts]; now rewrite IH.
Qed.










End Cleanup.

(** ** Uploads *)

Lemma append_inj_l (a x y : string) : (a ++ x = a ++ y)%string -> x = y.
Proof. induction a as [| c a IH]; simpl; [auto | intros [= H]; auto]. Qed.

Lemma basename_relative (b : string) :
  Posixpath.has_char Posixpath.sep b = false -> Posixpath.basename b = b.
Proof.
  destruct b as [| c b]; [reflexivity |].
  rewrite has_char_cons. intros H. apply orb_false_iff in H as [Hc Hb].
  cbn [Posixpath.basename]. fold (Posixpath.has_char Posixpath.sep b).
  rewrite Hb. rewrite Ascii.eqb_sym in Hc. now rewrite Hc.
Qed.

Lemma basename_after_sep (a b : string) :
  Posixpath.has_char Posixpath.sep b = false ->
  Posixpath.basename (a ++ "/" ++ b) = b.
Proof.
  intros Hb. induction a as [| c a IH].
  - change ("" ++ "/" ++ b)%string with (String Posixpath.sep b).
    cbn [Posixpath.basename]. fold (Posixpath.has_char Posixpath.sep b).
    now rewrite Hb, Ascii.eqb_refl.
  - change (String c a ++ "/" ++ b)%string with (String c (a ++ "/" ++ b)).
    cbn [Posixpath.basename].
    fold (Posixpath.has_char Posixpath.sep (a ++ "/" ++ b)).
    rewrite has_char_app.
    change (Posixpath.has_char Posixpath.sep ("/" ++ b)) with true.
    now rewrite orb_true_r.
Qed.

Lemma endswith_sep_inv (a : string) :
  Posixpath.endswith_sep a = true -> exists a', a = (a' ++ "/")%string.
Proof.
  induction a as [| c a IH]; [discriminate |].
  destruct a as [| c' a].
  - cbn. intros H. apply Ascii.eqb_eq in H. subst. now exists "".
  - intros H. destruct (IH H) as (a' & ->). now exists (String c a').
Qed.

Lemma basename_join (a b : string) :
  Posixpath.has_char Posixpath.sep b = false ->
  Posixpath.basename (Posixpath.join a b) = b.
Proof.
  intros Hb. rewrite (join_relative a b Hb).
  destruct a as [| x a]; [now apply basename_relative |].
  destruct (Posixpath.endswith_sep (String x a)) eqn:Ha.
  - destruct (endswith_sep_inv _ Ha) as (a' & ->).
    rewrite append_assoc. now apply basename_after_sep.
  - now apply basename_after_sep.
Qed.

Lemma join_inj (a x y : string) :
  Posixpath.has_char Posixpath.sep x = false ->
  Posixpath.has_char Posixpath.sep y = false ->
  Posixpath.join a x = Posixpath.join a y -> x = y.
Proof.
  intros Hx Hy E.
  rewrite <- (basename_join a x Hx), <- (basename_join a y Hy). now rewrite E.
Qed.

Section Uploads.

Variable guess_type : string -> option string.
Variable gettempdir : string.
Variable tmp_suffix : nat -> string.

(** The temporary directory is an absolute path. *)
Hypothesis gettempdir_absolute : Py.startswith gettempdir "/" = true.
(** The names made up have no dot and no separator in them, and none is
    handed out twice. *)
Hypothesis tmp_suffix_plain :
  forall n, Posixpath.has_char "."%char (tmp_suffix n) = false
            /\ Posixpath.has_char Posixpath.sep (tmp_suffix n) = false.
Hypothesis tmp_suffix_fresh : forall m n, tmp_suffix m = tmp_suffix n -> m = n.
(** An absolute path whose last component has no dot has no content type. *)
Hypothesis guess_type_needs_extension :
  forall p, Py.startswith p "/" = true ->
            Posixpath.has_char "."%char (Posixpath.basename p) = false ->
            guess_type p = None.

Let tmp (n : nat) : string := tmp_name gettempdir tmp_suffix n.

Lemma tmp_leaf_plain (n : nat) :
  Posixpath.has_char "."%char ("tmp" ++ tmp_suffix n) = false
  /\ Posixpath.has_char Posixpath.sep ("tmp" ++ tmp_suffix n) = false.
Proof.
  destruct (tmp_suffix_plain n) as [Hd Hs].
  rewrite !has_char_app, Hd, Hs. split; reflexivity.
Qed.

Lemma tmp_name_inj (m n : nat) : tmp m = tmp n -> m = n.
Proof.
  unfold tmp, tmp_name. intros E.
  apply join_inj in E; try apply tmp_leaf_plain.
  apply tmp_suffix_fresh. now apply (append_inj_l "tmp").
Qed.


Lemma store_uploads_next (ups : list (string * list byte)) (w : world)
    (d : Dict.dict) :
  next_tmp (fst (store_uploads gettempdir tmp_suffix ups w d))
  = next_tmp w + List.length ups.
Proof.
  revert w d. induction ups as [| [name value] ups IH]; intros w d;
    cbn [store_uploads List.length fst].
  - lia.
  - rewrite IH. cbn [next_tmp]. lia.
Qed.

(** Later uploads go to later names: a copy made before them is kept. *)
Lemma store_uploads_keeps (ups : list (string * list byte)) (w : world)
    (d : Dict.dict) (n : nat) :
  n < next_tmp w ->
  files (fst (store_uploads gettempdir tmp_suffix ups w d)) (tmp n)
  = files w (tmp n).
Proof.
  revert w d. induction ups as [| [name value] ups IH]; intros w d Hn;
    cbn [store_uploads]; [reflexivity |].
  rewrite IH by (cbn [next_tmp]; lia). cbn [files].
  destruct (String.eqb_spec (tmp n) (tmp_name gettempdir tmp_suffix (next_tmp w)))
    as [E | _]; [| reflexivity].
  apply tmp_name_inj in E. lia.
Qed.

Lemma store_uploads_copies (ups : list (string * list byte)) (w : world)
    (d : Dict.dict) (i : nat) (name : string) (data : list byte) :
  nth_error ups i = Some (name, data) ->
  files (fst (store_uploads gettempdir tmp_suffix ups w d)) (tmp (next_tmp w + i))
  = Readable data.
Proof.
  revert w d i. induction ups as [| [name' value] ups IH]; intros w d i Hi.
  - destruct i; discriminate.
  - cbn [store_uploads]. destruct i as [| i].
    + injection Hi as -> ->. rewrite Nat.add_0_r.
      rewrite store_uploads_keeps by (cbn [next_tmp]; lia).
      cbn [files]. unfold tmp. now rewrite String.eqb_refl.
    + cbn [nth_error] in Hi.
      match goal with
      | |- context [store_uploads _ _ ups ?w1 ?d1] => specialize (IH w1 d1 i Hi)
      end.
      cbn [next_tmp] in IH.
      replace (next_tmp w + S i) with (S (next_tmp w) + i) by lia.
      exact IH.
Qed.

Lemma store_uploads_entries (ups : list (string * list byte)) (w : world)
    (d : Dict.dict) (name path : string) :
  Dict.get name (snd (store_uploads gettempdir tmp_suffix ups w d)) = Some path ->
  Dict.get name d = Some path
  \/ exists i data, nth_error ups i = Some (name, data)
                    /\ path = tmp (next_tmp w + i).
Proof.
  revert w d. induction ups as [| [name' value] ups IH]; intros w d Hg.
  - now left.
  - cbn [store_uploads] in Hg. apply IH in Hg as [Hg | (i & data & Hi & ->)].
    + destruct (String.eqb_spec name name') as [-> | Hne].
      * rewrite dict_get_set_same in Hg. injection Hg as <-.
        right. exists 0, value. split; [reflexivity |].
        now rewrite Nat.add_0_r.
      * rewrite dict_get_set_other in Hg by exact Hne. now left.
    + right. exists (S i), data. split; [exact Hi |].
      cbn [next_tmp]. f_equal. lia.
Qed.

End Uploads.

(** ** One run of the script *)

Lemma downloads_app (a b : list event) :
  downloads (a ++ b) = (downloads a ++ downloads b)%list.
Proof.
  induction a as [| e a IH]; [reflexivity |].
  destruct e; cbn [app downloads]; now rewrite ?IH.
Qed.

Lemma unlink_attempts_app (a b : list event) :
  unlink_attempts (a ++ b) = (unlink_attempts a ++ unlink_attempts b)%list.
Proof.
  induction a as [| e a IH]; [reflexivity |].
  destruct e; cbn [app unlink_attempts]; now rewrite ?IH.
Qed.

Lemma reads_only_app (a b : list event) :
  reads_only a -> reads_only b -> reads_only (a ++ b).
Proof.
  unfold reads_only. intros [H1 H2] [H3 H4].
  now rewrite downloads_app, unlink_attempts_app, H1, H2, H3, H4.
Qed.

Lemma selection_spec (inp : inputs) (d : Dict.dict) (name : string) :
  In name (Dict.keys d) ->
  Py.str_in name (selection inp d) = negb (checkbox inp name).
Proof.
  intros Hin. unfold selection.
  destruct (negb (checkbox inp name)) eqn:Hc.
  - apply str_in_spec, filter_In. split; [| exact Hc].
    eapply Permutation_in; [apply Permutation_sym, sorted_perm | exact Hin].
  - destruct (Py.str_in name _) eqn:Hs; [| reflexivity].
    apply str_in_spec, filter_In in Hs as [_ Hs]. congruence.
Qed.

Section Run.

Variable guess_type : string -> option string.
Variable gettempdir : string.
Variable tmp_suffix : nat -> string.

Lemma is_binary_file_reads_only (file_path : string) (w : fs) :
  reads_only (snd (is_binary_file guess_type file_path w)).
Proof.
  unfold is_binary_file, bind, try_except, open_file, read_bytes, ret.
  destruct (Py.truthy (guess_type file_path)); [now split |].
  destruct (w file_path); now split.
Qed.

Lemma extract_file_content_reads_only (file_path : string) (w : fs) :
  reads_only (snd (extract_file_content guess_type file_path w)).
Proof.
  destruct (is_binary_file_total guess_type file_path w) as (b & tr & Hb).
  pose proof (is_binary_file_reads_only file_path w) as Hq.
  rewrite Hb in Hq. cbn [snd] in Hq.
  rewrite (extract_file_content_cases _ _ _ _ _ Hb).
  destruct b; cbn [snd]; [exact Hq |].
  apply reads_only_app; [exact Hq |].
  unfold text_trace. destruct (w file_path); now split.
Qed.

Lemma combine_reads_only (items : list (string * string)) (ign acc : list string)
    (w : fs) :
  reads_only (snd (combine guess_type items ign acc w)).
Proof.
  revert acc. induction items as [| [name path] items IH]; intros acc.
  - now split.
  - cbn [combine]. destruct (negb (Py.str_in name ign)); [| apply IH].
    unfold bind.
    pose proof (extract_file_content_reads_only path w) as Hq.
    destruct (extract_file_content guess_type path w) as [[s | e] tr];
      cbn [snd] in *; [| exact Hq].
    match goal with
    | |- context [combine _ _ _ ?a w] => specialize (IH a)
    end.
    destruct (combine guess_type items ign _ w) as [r tr']. cbn [snd] in *.
    now apply reads_only_app.
Qed.

Lemma generate_reads_only (d : Dict.dict) (ign : list string) (w : fs) :
  reads_only (snd (generate guess_type d ign w)).
Proof.
  unfold generate, bind.
  pose proof (combine_reads_only (Sorted.sorted Sorted.tuple_leb d) ign [] w) as Hq.
  destruct (combine guess_type _ ign [] w) as [[l | e] tr]; cbn [snd] in *;
    [| exact Hq].
  unfold ret. now rewrite app_nil_r.
Qed.

Lemma cleanup_no_download (paths : list string) (w : world) :
  downloads (snd (cleanup gettempdir paths w)) = [].
Proof.
  revert w. induction paths as [| path rest IH]; intros w; [reflexivity |].
  rewrite cleanup_cons.
  destruct (Py.startswith path gettempdir); [| apply IH].
  destruct (unlink_failure w path); cbn [snd downloads]; apply IH.
Qed.

End Run.

(** ** The claims on sample runs *)

Lemma letters_plain (c : ascii) (k : nat) :
  Ascii.eqb c "a" = false -> Posixpath.has_char c (letters k) = false.
Proof.
  intros Hc. induction k as [| k IH]; [reflexivity |].
  cbn [letters]. now rewrite has_char_cons, Hc, IH.
Qed.

Lemma letters_length (k : nat) : String.length (letters k) = k.
Proof. induction k as [| k IH]; simpl; congruence. Qed.

Lemma sample_tmp_suffix_plain (n : nat) :
  Posixpath.has_char "."%char (sample_tmp_suffix n) = false
  /\ Posixpath.has_char Posixpath.sep (sample_tmp_suffix n) = false.
Proof. split; now apply letters_plain. Qed.

Lemma sample_tmp_suffix_fresh (m n : nat) :
  sample_tmp_suffix m = sample_tmp_suffix n -> m = n.
Proof.
  unfold sample_tmp_suffix. intros E.
  apply (f_equal String.length) in E. rewrite !letters_length in E. lia.
Qed.



(** C4, as stated, fails: for the uploads [a.txt] and [b.bin] the block of
    [b.bin] holds a placeholder that names the temporary copy, not [b.bin];
    and when the bytes of [b.bin] have no null byte the placeholder is the
    not-valid-UTF-8 one. *)
Lemma C4_placeholder_names_temporary_copy :
  downloads (snd (script sample_guess_type sample_tmpdir sample_tmp_suffix
                    (two_uploads [x00; xff]) empty_world))
  = [delimiter "a.txt" ++ Py.NL ++ "hello" ++ Py.NL ++ Py.NL ++ Py.NL
     ++ delimiter "b.bin" ++ Py.NL
     ++ "[Skipped binary file: /tmp/tmpaaaaaaaaa]" ++ Py.NL ++ Py.NL]
  /\ downloads (snd (script sample_guess_type sample_tmpdir sample_tmp_suffix
                       (two_uploads [xff; xfe]) empty_world))
     = [delimiter "a.txt" ++ Py.NL ++ "hello" ++ Py.NL ++ Py.NL ++ Py.NL
        ++ delimiter "b.bin" ++ Py.NL
        ++ "[Skipped: File /tmp/tmpaaaaaaaaa is not valid UTF-8 text]"
        ++ Py.NL ++ Py.NL]
  /\ Py.utf8_valid [x00; xff] = false
  /\ Py.utf8_valid [xff; xfe] = false.
Proof. repeat split; vm_compute; reflexivity. Qed.

(** C4, amended, on [a.txt] found in a directory, where its type is text,
    and [b.bin] uploaded, with the mapping taken in the other order. *)
Lemma C4_two_entries_output_witness :
  exists flagged,
    fst (is_binary_file sample_guess_type "/tmp/tmpaaaaaaaa" mixed_host)
    = Py.Ret flagged
    /\ (Py.truthy (sample_guess_type "/tmp/tmpaaaaaaaa") = false ->
        flagged = Py.has_null (firstn 1024 [xff; xfe]))
    /\ fst (generate sample_guess_type
              [("b.bin", "/tmp/tmpaaaaaaaa"); ("a.txt", "/proj/a.txt")] []
              mixed_host)
       = Py.Ret (delimiter "a.txt" ++ Py.NL ++ "hello" ++ Py.NL ++ Py.NL
                 ++ Py.NL
                 ++ delimiter "b.bin" ++ Py.NL
                 ++ (if flagged
                     then "[Skipped binary file: " ++ "/tmp/tmpaaaaaaaa" ++ "]"
                     else "[Skipped: File " ++ "/tmp/tmpaaaaaaaa"
                          ++ " is not valid UTF-8 text]")
                 ++ Py.NL ++ Py.NL).
Proof.
  apply (C4_two_entries_output sample_guess_type
           [("b.bin", "/tmp/tmpaaaaaaaa"); ("a.txt", "/proj/a.txt")]
           "/proj/a.txt" "/tmp/tmpaaaaaaaa" [xff; xfe] [] mixed_host);
    try reflexivity.
  apply perm_swap.
Defined.

(** C6, as stated, fails: of the bytes [a], CR, LF, [b], which decode to
    four characters, [extract_file_content] returns the three characters
    [a], LF, [b]. *)
Lemma C6_line_ends_translated :
  extract_file_content sample_guess_type "/d/notes" (one_file "/d/notes" crlf_bytes)
  = (Py.Ret (String "a" (String Py.LF (String "b" EmptyString))),
     [EvOpen "/d/notes" RB; EvRead "/d/notes" (Some 1024);
      EvOpen "/d/notes" RText; EvRead "/d/notes" None])
  /\ Py.decode_utf8 crlf_bytes
     = Py.Ret (String "a" (String Py.CR (String Py.LF (String "b" EmptyString)))).
Proof. split; vm_compute; reflexivity. Qed.

(** C6, amended, on a file with CR LF in it, on a file that is not UTF-8,
    and on a text file that is not there. *)
Lemma C6_extract_file_content_total_witness :
  extract_file_content sample_guess_type "/d/notes" (one_file "/d/notes" crlf_bytes)
  = (Py.Ret (Py.universal_newlines (string_of_list_byte crlf_bytes)),
     [EvOpen "/d/notes" RB; EvRead "/d/notes" (Some 1024);
      EvOpen "/d/notes" RText; EvRead "/d/notes" None])
  /\ fst (extract_file_content sample_guess_type "/d/notes"
            (one_file "/d/notes" [xff; xfe]))
     = Py.Ret "[Skipped: File /d/notes is not valid UTF-8 text]"
  /\ fst (extract_file_content sample_guess_type "/d/gone.txt"
            (one_file "/d/notes" crlf_bytes))
     = Py.Ret "[Error reading file /d/gone.txt: [Errno 2] No such file or directory: '/d/gone.txt']"
  /\ extract_file_content sample_guess_type "/d/photo.png"
       (one_file "/d/notes" crlf_bytes)
     = (Py.Ret "[Skipped binary file: /d/photo.png]", []).
Proof.
  split; [| split; [| split]].
  - apply (proj1 (proj2 (proj2 (C6_extract_file_content_total sample_guess_type
                                  "/d/notes" (one_file "/d/notes" crlf_bytes)))
                   [EvOpen "/d/notes" RB; EvRead "/d/notes" (Some 1024)]
                   eq_refl) crlf_bytes); reflexivity.
  - apply (proj1 (proj2 (proj2 (proj2 (C6_extract_file_content_total
                                         sample_guess_type "/d/notes"
                                         (one_file "/d/notes" [xff; xfe])))
                          [EvOpen "/d/notes" RB; EvRead "/d/notes" (Some 1024)]
                          eq_refl)) [xff; xfe]); reflexivity.
  - apply (proj2 (proj2 (proj2 (proj2 (C6_extract_file_content_total
                                         sample_guess_type "/d/gone.txt"
                                         (one_file "/d/notes" crlf_bytes)))
                          [] eq_refl)) (enoent "/d/gone.txt")).
    left. reflexivity.
  - apply (proj1 (proj2 (C6_extract_file_content_total sample_guess_type
                           "/d/photo.png" (one_file "/d/notes" crlf_bytes)))).
    reflexivity.
Defined.

(** C7 on an upload and a directory file of the same name: the directory's
    path is the one kept. *)
Lemma C7_merge_last_wins_witness :
  Dict.get "a.txt"
    (snd (merge_sources sample_tmpdir sample_tmp_suffix colliding empty_world))
  = Some "/proj/a.txt"
  /\ Dict.get "a.txt"
       (snd (store_uploads sample_tmpdir sample_tmp_suffix
               (uploaded_files colliding) empty_world []))
     = Some "/tmp/tmpaaaaaaaa".
Proof.
  split; [| reflexivity].
  apply (proj2 (proj2 (C7_merge_last_wins sample_tmpdir sample_tmp_suffix
                         colliding empty_world))
           (Dir NoDirs ["a.txt"; "b.py"]) "a.txt");
    [discriminate | reflexivity].
Defined.

(** C8 on a mapping discovered in descending order of names. *)
Lemma C8_combined_output_witness :
  exists items tr,
    generate sample_guess_type
      [("b.bin", "/tmp/tmpaaaaaaaaa"); ("a.txt", "/tmp/tmpaaaaaaaa")] []
      (two_copies [x00])
    = (Py.Ret (Py.join Py.NL
                 (map (block sample_guess_type (two_copies [x00])) items)), tr)
    /\ Permutation items
         (filter (included [])
                 [("b.bin", "/tmp/tmpaaaaaaaaa"); ("a.txt", "/tmp/tmpaaaaaaaa")])
    /\ StronglySorted (fun a b => String.compare (fst a) (fst b) = Lt) items
    /\ forall d',
         Permutation [("b.bin", "/tmp/tmpaaaaaaaaa"); ("a.txt", "/tmp/tmpaaaaaaaa")] d' ->
         generate sample_guess_type d' [] (two_copies [x00])
         = generate sample_guess_type
             [("b.bin", "/tmp/tmpaaaaaaaaa"); ("a.txt", "/tmp/tmpaaaaaaaa")] []
             (two_copies [x00]).
Proof.
  apply (C8_combined_output sample_guess_type
           [("b.bin", "/tmp/tmpaaaaaaaaa"); ("a.txt", "/tmp/tmpaaaaaaaa")] []
           (two_copies [x00])).
  simpl. repeat constructor; simpl; intuition discriminate.
Defined.



(** * Further properties of the code *)

(** ** The ignore list, rule by rule *)

Lemma existsb_same_elements {A : Type} (f : A -> bool) (l l' : list A) :
  (forall x, In x l <-> In x l') -> existsb f l = existsb f l'.
Proof.
  intros H. apply eq_true_iff_eq. rewrite !existsb_exists.
  split; intros (x & Hx & Hf); exists x; split; try assumption; now apply H.
Qed.

Lemma existsb_pointwise {A : Type} (f g : A -> bool) (l : list A) :
  (forall x, In x l -> f x = g x) -> existsb f l = existsb g l.
Proof.
  induction l as [| x l IH]; intros H; [reflexivity |].
  cbn [existsb]. rewrite (H x) by now left.
  rewrite IH; [reflexivity |]. intros y Hy. apply H. now right.
Qed.

Lemma existsb_mapped {A B : Type} (f : B -> bool) (g : A -> B) (l : list A) :
  existsb f (map g l) = existsb (fun x => f (g x)) l.
Proof. induction l as [| x l IH]; cbn [map existsb]; congruence. Qed.

Lemma str_in_both_ways (l l' : list string) :
  forallb (fun x => Py.str_in x l') l = true ->
  forallb (fun x => Py.str_in x l) l' = true ->
  forall x, In x l <-> In x l'.
Proof.
  rewrite !forallb_forall. intros H H' x.
  split; intros Hx; apply str_in_spec; auto.
Qed.

(** A pattern with no wildcard matches itself and nothing else. *)
Lemma fnmatch_literal (lit : string) :
  literal lit = true ->
  forall name, Fnmatch.fnmatch name lit = String.eqb name lit.
Proof.
  unfold Fnmatch.fnmatch.
  induction lit as [| p lit IH]; intros Hlit name.
  - now destruct name.
  - cbn [literal] in Hlit.
    apply andb_true_iff in Hlit as [Hp Hlit].
    apply andb_true_iff in Hp as [Hs Hq].
    apply negb_true_iff in Hs, Hq.
    rewrite (fnmatch_pat_char _ _ _ Hs Hq).
    destruct name as [| c name]; [reflexivity |].
    cbn [String.eqb]. rewrite IH by exact Hlit.
    now rewrite (Ascii.eqb_sym p c).
Qed.

(** A star followed by a literal matches exactly the names the literal ends. *)
Lemma fnmatch_star_literal (lit : string) :
  literal lit = true ->
  forall name, Fnmatch.fnmatch name ("*" ++ lit) = endswith name lit.
Proof.
  intros Hlit name. unfold Fnmatch.fnmatch.
  change ("*" ++ lit)%string with (String Fnmatch.star lit).
  induction name as [| c name IH].
  - rewrite fnmatch_pat_star. cbn [endswith].
    now rewrite <- (fnmatch_literal lit Hlit "").
  - rewrite fnmatch_pat_star, IH. cbn [endswith].
    now rewrite <- (fnmatch_literal lit Hlit (String c name)).
Qed.

(** A literal in front of a pattern is matched off the front of the name. *)
Lemma fnmatch_literal_then (lit pat : string) :
  literal lit = true ->
  forall name,
    Fnmatch.fnmatch name (lit ++ pat)
    = Py.startswith name lit && Fnmatch.fnmatch (drop (String.length lit) name) pat.
Proof.
  unfold Fnmatch.fnmatch, Py.startswith.
  induction lit as [| p lit IH]; intros Hlit name.
  - now rewrite prefix_nil.
  - cbn [literal] in Hlit.
    apply andb_true_iff in Hlit as [Hp Hlit].
    apply andb_true_iff in Hp as [Hs Hq].
    apply negb_true_iff in Hs, Hq.
    change (String p lit ++ pat)%string with (String p (lit ++ pat)).
    rewrite (fnmatch_pat_char _ _ _ Hs Hq).
    destruct name as [| c name]; [reflexivity |].
    rewrite prefix_cons, IH by exact Hlit.
    cbn [String.length drop]. now rewrite andb_assoc.
Qed.

Lemma patterns_by_kind_same (pat : string) :
  In pat ignore_patterns <-> In pat patterns_by_kind.
Proof. apply str_in_both_ways; vm_compute; reflexivity. Qed.

(** X1.  What [should_ignore_path] decides, rule by rule: a path is ignored
    exactly when it is one of the four names listed as they stand, or starts
    with one of the ten directory prefixes, or ends with one of the listed
    endings, or starts with [.DS_Store] and goes on to end with [.pdf]. *)
Theorem should_ignore_path_by_kind (path : string) :
  should_ignore_path path
  = Py.str_in path exact_names
    || existsb (Py.startswith path) ignored_prefixes
    || existsb (endswith path) ignored_suffixes
    || (Py.startswith path ".DS_Store" && endswith (drop 9 path) ".pdf").
Proof.
  unfold should_ignore_path.
  rewrite (existsb_same_elements _ _ _ patterns_by_kind_same).
  unfold patterns_by_kind.
  rewrite !existsb_app, !existsb_mapped, !orb_assoc. cbn [existsb].
  rewrite orb_false_r.
  f_equal; [f_equal; [f_equal |] |].
  - unfold Py.str_in. apply existsb_pointwise.
    intros x Hx. apply fnmatch_literal.
    revert x Hx. apply Forall_forall. unfold exact_names.
    repeat constructor.
  - apply existsb_pointwise.
    intros x Hx. apply fnmatch_literal_star.
    revert x Hx. apply Forall_forall. unfold ignored_prefixes.
    repeat constructor.
  - apply existsb_pointwise.
    intros x Hx. apply fnmatch_star_literal.
    revert x Hx. apply Forall_forall. unfold ignored_suffixes.
    repeat constructor.
  - change ".DS_Store*.pdf" with (".DS_Store" ++ "*" ++ ".pdf")%string.
    rewrite fnmatch_literal_then by reflexivity.
    now rewrite fnmatch_star_literal.
Qed.

(** ** What the collector keeps *)

Lemma dict_keys_set_in (k v x : string) (d : Dict.dict) :
  In x (Dict.keys (Dict.set k v d)) -> x = k \/ In x (Dict.keys d).
Proof.
  rewrite dict_keys_set. destruct (Py.str_in k (Dict.keys d)); [auto |].
  intros H. apply in_app_or in H as [H | [<- | []]]; auto.
Qed.

Section Kept.

Variable ign : list string.

Let allowed (fd : Dict.dict) : Prop :=
  forall k, In k (Dict.keys fd) ->
            should_ignore_path k = false /\ Py.str_in k ign = false.

Lemma add_files_allowed (root : string) (below names : list string)
    (fd : Dict.dict) :
  allowed fd -> allowed (add_files root below ign names fd).
Proof.
  revert fd. induction names as [| f names IH]; intros fd Hfd; [exact Hfd |].
  cbn [add_files].
  destruct (Py.str_in (relpath below f) ign) eqn:Hi; cbn [negb andb];
    [now apply IH |].
  destruct (should_ignore_path (relpath below f)) eqn:Hs; cbn [negb];
    [now apply IH |].
  apply IH. intros k Hk.
  apply dict_keys_set_in in Hk as [-> | Hk]; auto.
Qed.

Lemma walk_allowed (t : tree) :
  forall root below fd, allowed fd -> allowed (walk t root below ign fd).
Proof.
  induction t using tree_forest_ind with
    (P0 := fun ds => forall root below fd,
             allowed fd -> allowed (walk_dirs ds root below ign fd));
    intros root below fd Hfd; cbn [walk walk_dirs].
  - apply IHt, add_files_allowed, Hfd.
  - exact Hfd.
  - destruct (should_ignore_path name); apply IHt0; [| apply IHt]; exact Hfd.
Qed.

End Kept.

(** X2.  No name in the collector's result matches an ignore pattern, and
    none is in the exclusion set the caller gave. *)
Theorem get_files_from_directory_keys_allowed (directory_path : string)
    (t : tree) (ignore_list : list string) (key : string) :
  In key (Dict.keys (get_files_from_directory directory_path t ignore_list)) ->
  should_ignore_path key = false /\ Py.str_in key ignore_list = false.
Proof.
  unfold get_files_from_directory. revert key.
  apply (walk_allowed ignore_list t directory_path [] []).
  intros k [].
Qed.

Lemma filter_set_drop (f : string * string -> bool) (k v : string)
    (d : Dict.dict) :
  (forall x, f (k, x) = false) ->
  filter f (Dict.set k v d) = filter f d.
Proof.
  intros Hf. induction d as [| [k' v'] d IH]; cbn [Dict.set filter].
  - now rewrite Hf.
  - destruct (String.eqb_spec k' k) as [-> | Hne]; cbn [filter].
    + now rewrite !Hf.
    + now rewrite IH.
Qed.

Lemma filter_set_keep (f : string * string -> bool) (k v : string)
    (d : Dict.dict) :
  (forall a x y, f (a, x) = f (a, y)) -> f (k, v) = true ->
  filter f (Dict.set k v d) = Dict.set k v (filter f d).
Proof.
  intros Hkey Hf. induction d as [| [k' v'] d IH]; cbn [Dict.set filter].
  - now rewrite Hf.
  - destruct (String.eqb_spec k' k) as [-> | Hne]; cbn [filter].
    + rewrite (Hkey k v' v), Hf. cbn [Dict.set]. now rewrite String.eqb_refl.
    + destruct (f (k', v')); cbn [Dict.set]; rewrite IH; [| reflexivity].
      apply String.eqb_neq in Hne. now rewrite Hne.
Qed.

Section Excluded.

Variable ign : list string.

Lemma unlisted_key (a x y : string) : unlisted ign (a, x) = unlisted ign (a, y).
Proof. reflexivity. Qed.

Lemma add_files_excluded (root : string) (below names : list string)
    (fd : Dict.dict) :
  add_files root below ign names (filter (unlisted ign) fd)
  = filter (unlisted ign) (add_files root below [] names fd).
Proof.
  revert fd. induction names as [| f names IH]; intros fd; [reflexivity |].
  cbn [add_files Py.str_in existsb negb andb].
  destruct (should_ignore_path (relpath below f)) eqn:Hs;
    cbn [negb]; rewrite ?andb_false_r; [apply IH |].
  destruct (Py.str_in (relpath below f) ign) eqn:Hi; cbn [negb andb].
  - rewrite <- IH. f_equal. symmetry. apply filter_set_drop.
    intros x. unfold unlisted. cbn [fst]. now rewrite Hi.
  - rewrite <- IH. f_equal. symmetry. apply filter_set_keep.
    + apply unlisted_key.
    + unfold unlisted. cbn [fst]. now rewrite Hi.
Qed.

Lemma walk_excluded (t : tree) :
  forall root below fd,
    walk t root below ign (filter (unlisted ign) fd)
    = filter (unlisted ign) (walk t root below [] fd).
Proof.
  induction t using tree_forest_ind with
    (P0 := fun ds => forall root below fd,
             walk_dirs ds root below ign (filter (unlisted ign) fd)
             = filter (unlisted ign) (walk_dirs ds root below [] fd));
    intros root below fd; cbn [walk walk_dirs].
  - now rewrite add_files_excluded, IHt.
  - reflexivity.
  - destruct (should_ignore_path name); [apply IHt0 |].
    now rewrite IHt, IHt0.
Qed.

End Excluded.

(** X4.  The exclusion set only takes entries away: the result with an
    exclusion set is the result without one, in the same order and with the
    same paths, less the entries whose names are in the set. *)
Theorem get_files_from_directory_exclusion (directory_path : string)
    (t : tree) (ignore_list : list string) :
  get_files_from_directory directory_path t ignore_list
  = filter (unlisted ignore_list) (get_files_from_directory directory_path t []).
Proof.
  unfold get_files_from_directory.
  now rewrite <- walk_excluded.
Qed.

(** ** Where the collected paths point *)

Lemma join_of_relative (a b : string) :
  relative b = true ->
  Posixpath.join a b
  = match a with
    | EmptyString => b
    | String _ _ =>
      if Posixpath.endswith_sep a then (a ++ b)%string else (a ++ "/" ++ b)%string
    end.
Proof.
  intros Hb. unfold Posixpath.join. destruct b as [| c b]; [reflexivity |].
  cbn [relative] in Hb. apply negb_true_iff in Hb. now rewrite Hb.
Qed.

Lemma endswith_sep_app (a b : string) :
  b <> "" -> Posixpath.endswith_sep (a ++ b) = Posixpath.endswith_sep b.
Proof.
  intros Hb. induction a as [| c a IH]; [reflexivity |].
  change (String c a ++ b)%string with (String c (a ++ b)).
  cbn [Posixpath.endswith_sep]. destruct (a ++ b)%string eqn:E; [| exact IH].
  destruct a; [| discriminate]. now destruct b.
Qed.

Lemma no_sep_no_trailing_sep (s : string) :
  Posixpath.has_char Posixpath.sep s = false -> Posixpath.endswith_sep s = false.
Proof.
  induction s as [| c s IH]; [reflexivity |].
  rewrite has_char_cons. intros H. apply orb_false_iff in H as [Hc Hs].
  cbn [Posixpath.endswith_sep]. destruct s as [| c' s].
  - now rewrite Ascii.eqb_sym.
  - now apply IH.
Qed.

Lemma entry_name_facts (name : string) :
  entry_name name = true ->
  name <> "" /\ relative name = true /\ Posixpath.endswith_sep name = false.
Proof.
  intros H. pose proof (entry_name_relative name H) as Hs.
  unfold entry_name in H. apply andb_true_iff in H as [Hne _].
  apply negb_true_iff, String.eqb_neq in Hne.
  repeat split; [exact Hne | | now apply no_sep_no_trailing_sep].
  destruct name as [| c name]; [reflexivity |].
  rewrite has_char_cons in Hs. apply orb_false_iff in Hs as [Hc _].
  cbn [relative]. now rewrite Ascii.eqb_sym, Hc.
Qed.

Lemma relative_app (a b : string) :
  a <> "" -> relative (a ++ b) = relative a.
Proof. destruct a; [contradiction | reflexivity]. Qed.

Lemma append_nonempty (a b : string) : a <> "" -> (a ++ b)%string <> "".
Proof. destruct a; [contradiction | discriminate]. Qed.

(** Joining a name to a joined path is joining the longer relative path. *)
Lemma join_join (dp rel d : string) :
  rel <> "" -> relative rel = true -> Posixpath.endswith_sep rel = false ->
  relative d = true ->
  Posixpath.join (Posixpath.join dp rel) d
  = Posixpath.join dp (rel ++ "/" ++ d).
Proof.
  intros Hne Hrel Hend Hd.
  assert (Hlong : relative (rel ++ "/" ++ d) = true)
    by now rewrite relative_app.
  rewrite (join_of_relative dp rel Hrel), (join_of_relative dp _ Hlong).
  destruct dp as [| c dp].
  - rewrite (join_of_relative rel d Hd), Hend. now destruct rel.
  - destruct (Posixpath.endswith_sep (String c dp)).
    + rewrite (join_of_relative _ d Hd), endswith_sep_app, Hend by exact Hne.
      cbn [append]. now rewrite !append_assoc.
    + rewrite (join_of_relative _ d Hd).
      rewrite (endswith_sep_app (String c dp) ("/" ++ rel)) by discriminate.
      rewrite (endswith_sep_app "/" rel), Hend by exact Hne.
      cbn [append]. now rewrite !append_assoc.
Qed.

Lemma concat_snoc (sep x : string) (l : list string) :
  String.concat sep (l ++ [x])
  = match l with
    | [] => x
    | _ :: _ => (String.concat sep l ++ sep ++ x)%string
    end.
Proof.
  induction l as [| a l IH]; [reflexivity |].
  cbn [app]. rewrite concat_cons_nonempty by now destruct l.
  rewrite IH. destruct l as [| b l]; [reflexivity |].
  rewrite (concat_cons_nonempty sep a (b :: l)) by discriminate.
  now rewrite !append_assoc.
Qed.

Lemma dict_set_in (k v k' v' : string) (d : Dict.dict) :
  In (k', v') (Dict.set k v d) -> (k', v') = (k, v) \/ In (k', v') d.
Proof.
  induction d as [| [k0 v0] d IH]; cbn [Dict.set].
  - intros [H | []]. left. now symmetry.
  - destruct (String.eqb_spec k0 k) as [-> | Hne].
    + intros [H | H]; [left; now symmetry | right; now right].
    + intros [H | H]; [right; now left |].
      destruct (IH H); [now left | right; now right].
Qed.

Lemma dict_get_in (k v : string) (d : Dict.dict) :
  Dict.get k d = Some v -> In (k, v) d.
Proof.
  induction d as [| [k' v'] d IH]; cbn [Dict.get]; [discriminate |].
  destruct (String.eqb_spec k' k) as [-> | Hne].
  - intros [= ->]. now left.
  - intros H. right. auto.
Qed.

Section Pointing.

Variable dp : string.

Lemma at_dir_step (root : string) (below : list string) (name : string) :
  at_dir dp root below -> entry_name name = true ->
  at_dir dp (Posixpath.join root name) (below ++ [name]).
Proof.
  intros Hat Hname.
  destruct (entry_name_facts name Hname) as (Hne & Hrel & Hend).
  destruct below as [| b below].
  - cbn in Hat. subst root. cbn [app at_dir]. cbv zeta.
    change (Py.join "/" [name]) with name. auto.
  - cbn [at_dir] in Hat. cbv zeta in Hat.
    destruct Hat as (Hne' & Hrel' & Hend' & ->).
    change ((b :: below) ++ [name])%list with (b :: (below ++ [name]))%list.
    cbn [at_dir]. cbv zeta.
    change (b :: (below ++ [name]))%list with ((b :: below) ++ [name])%list.
    unfold Py.join in *. rewrite concat_snoc.
    set (rel := String.concat "/" (b :: below)) in *.
    repeat split.
    + now apply append_nonempty.
    + now rewrite relative_app.
    + rewrite (endswith_sep_app rel ("/" ++ name)) by discriminate.
      now rewrite (endswith_sep_app "/" name).
    + now apply join_join.
Qed.

Let pointing (fd : Dict.dict) : Prop :=
  forall k v, In (k, v) fd -> v = Posixpath.join dp k.

Lemma at_dir_file (root : string) (below : list string) (file : string) :
  at_dir dp root below -> entry_name file = true ->
  Posixpath.join root file = Posixpath.join dp (relpath below file).
Proof.
  intros Hat Hfile. pose proof (at_dir_step root below file Hat Hfile) as H.
  unfold relpath. destruct below as [| b below].
  - cbn in Hat. now subst.
  - change ((b :: below) ++ [file])%list with (b :: (below ++ [file]))%list in *.
    cbn [at_dir] in H. cbv zeta in H. apply H.
Qed.

Lemma add_files_pointing (root : string) (below ign names : list string)
    (fd : Dict.dict) :
  at_dir dp root below -> forallb entry_name names = true ->
  pointing fd -> pointing (add_files root below ign names fd).
Proof.
  intros Hat. revert fd.
  induction names as [| f names IH]; intros fd Hn Hfd; [exact Hfd |].
  cbn [forallb] in Hn. apply andb_true_iff in Hn as [Hf Hn].
  cbn [add_files]. destruct (negb _ && negb _); apply IH; try assumption.
  intros k v Hin. apply dict_set_in in Hin as [[= -> ->] | Hin]; [| auto].
  now apply at_dir_file.
Qed.

Lemma walk_pointing (t : tree) :
  forall root below ign fd,
    at_dir dp root below -> wf_tree t = true ->
    pointing fd -> pointing (walk t root below ign fd).
Proof.
  induction t using tree_forest_ind with
    (P0 := fun ds => forall root below ign fd,
             at_dir dp root below -> wf_forest ds = true ->
             pointing fd -> pointing (walk_dirs ds root below ign fd));
    intros root below ign fd Hat Hwf Hfd; cbn [walk walk_dirs].
  - cbn [wf_tree] in Hwf. apply andb_true_iff in Hwf as [Hd Hf].
    apply IHt; try assumption. now apply add_files_pointing.
  - exact Hfd.
  - cbn [wf_forest] in Hwf. apply andb_true_iff in Hwf as [Hwf Hrest].
    apply andb_true_iff in Hwf as [Hname Hsub].
    destruct (should_ignore_path name); apply IHt0; try assumption.
    apply IHt; try assumption. now apply at_dir_step.
Qed.

End Pointing.

(** X3.  Every entry of the collector's result binds a relative name to the
    given directory joined with that name: the stored path leads back to
    the file the name was computed from. *)
Theorem get_files_from_directory_points (directory_path : string) (t : tree)
    (ignore_list : list string) (key full : string) :
  wf_tree t = true ->
  Dict.get key (get_files_from_directory directory_path t ignore_list) = Some full ->
  full = Posixpath.join directory_path key.
Proof.
  intros Hwf Hget. apply dict_get_in in Hget. revert key full Hget.
  unfold get_files_from_directory.
  apply (walk_pointing directory_path t directory_path [] ignore_list []).
  - reflexivity.
  - exact Hwf.
  - intros k v [].
Qed.

(** ** Type before content *)

Lemma universal_newlines_no_cr (s : string) :
  Posixpath.has_char Py.CR (Py.universal_newlines s) = false.
Proof.
  induction s as [| c s IH]; [reflexivity |].
  cbn [Py.universal_newlines].
  destruct (Ascii.eqb c Py.CR) eqn:Hc.
  - destruct s as [| d s]; [reflexivity |].
    destruct (Ascii.eqb d Py.LF) eqn:Hd.
    + apply Ascii.eqb_eq in Hd. subst d.
      change (Py.universal_newlines (String Py.LF s))
        with (String Py.LF (Py.universal_newlines s)) in IH.
      exact IH.
    + now rewrite has_char_cons, IH.
  - rewrite has_char_cons, IH, Ascii.eqb_sym, Hc. reflexivity.
Qed.

Lemma universal_newlines_without_cr (s : string) :
  Posixpath.has_char Py.CR s = false -> Py.universal_newlines s = s.
Proof.
  induction s as [| c s IH]; [reflexivity |].
  rewrite has_char_cons. intros H. apply orb_false_iff in H as [Hc Hs].
  cbn [Py.universal_newlines]. rewrite Ascii.eqb_sym, Hc.
  now rewrite IH.
Qed.

Lemma ascii_bytes_valid (data : list byte) :
  forallb (Py.in_range 1 127) data = true -> Py.utf8_valid data = true.
Proof.
  induction data as [| b data IH]; [reflexivity |].
  cbn [forallb]. intros H. apply andb_true_iff in H as [Hb Hd].
  cbn [Py.utf8_valid].
  assert (Hb0 : Py.in_range 0 127 b = true).
  { unfold Py.in_range in *. cbv zeta in *.
    apply andb_true_iff in Hb as [_ Hb]. rewrite Hb.
    now destruct (Byte.to_N b). }
  rewrite Hb0. auto.
Qed.

Lemma ascii_bytes_no_null (data : list byte) :
  forallb (Py.in_range 1 127) data = true -> Py.has_null data = false.
Proof.
  unfold Py.has_null.
  induction data as [| b data IH]; [reflexivity |].
  cbn [forallb existsb]. intros H. apply andb_true_iff in H as [Hb Hd].
  rewrite IH by exact Hd. rewrite orb_false_r.
  destruct b; try reflexivity. discriminate Hb.
Qed.

Lemma forallb_firstn {A : Type} (f : A -> bool) (n : nat) (l : list A) :
  forallb f l = true -> forallb f (firstn n l) = true.
Proof.
  revert n. induction l as [| x l IH]; intros [| n] H; try reflexivity.
  cbn [forallb firstn] in *. apply andb_true_iff in H as [Hx Hl].
  now rewrite Hx, IH.
Qed.

Section TypeFirst.

Variable guess_type : string -> option string.

(** X5.  When a content type is guessed, the content plays no part in the
    choice: under a type that is not text the file is reported as a skipped
    binary without being opened, whatever it holds; under a text type it is
    read as text without the null-byte test. *)
Theorem extract_file_content_by_type (file_path t : string) (w : fs) :
  guess_type file_path = Some t -> t <> "" ->
  extract_file_content guess_type file_path w
  = if Py.startswith t "text/"
    then (Py.Ret (text_or_placeholder file_path (w file_path)),
          text_trace file_path (w file_path))
    else (Py.Ret ("[Skipped binary file: " ++ file_path ++ "]"), []).
Proof.
  intros Hg Ht.
  rewrite (extract_file_content_cases guess_type file_path w
             (negb (Py.startswith t "text/")) []).
  - now destruct (Py.startswith t "text/").
  - now apply is_binary_file_typed.
Qed.

(** X6.  With no type guessed, only the first 1024 bytes are tested: a null
    byte after them goes unseen, and the file is then returned as text, the
    null byte in it. *)
Theorem null_byte_past_first_chunk (file_path : string) (w : fs)
    (chunk rest : list byte) :
  Py.truthy (guess_type file_path) = false ->
  w file_path = Readable (chunk ++ rest) ->
  List.length chunk = 1024 ->
  is_binary_file guess_type file_path w
  = (Py.Ret (Py.has_null chunk),
     [EvOpen file_path RB; EvRead file_path (Some 1024)])
  /\ (Py.has_null chunk = false -> Py.utf8_valid (chunk ++ rest) = true ->
      fst (extract_file_content guess_type file_path w)
      = Py.Ret (Py.universal_newlines (string_of_list_byte (chunk ++ rest)))).
Proof.
  intros Hg Hw Hlen.
  assert (Hb : is_binary_file guess_type file_path w
               = (Py.Ret (Py.has_null chunk),
                  [EvOpen file_path RB; EvRead file_path (Some 1024)])).
  { rewrite is_binary_file_untyped by exact Hg. rewrite Hw.
    rewrite firstn_app, Hlen, Nat.sub_diag, <- Hlen, firstn_all.
    cbn [firstn]. now rewrite app_nil_r. }
  split; [exact Hb |].
  intros Hn Hv. rewrite Hn in Hb.
  rewrite (extract_file_content_cases _ _ _ _ _ Hb). cbn [fst].
  rewrite Hw. cbn [text_or_placeholder]. now rewrite Hv.
Qed.

(** X7.  Text returned for a file that decodes never holds a carriage
    return; and when the decoded text has none to begin with, it is
    returned as it is. *)
Theorem extracted_text_line_ends (file_path : string) (w : fs)
    (tr : list event) (data : list byte) :
  is_binary_file guess_type file_path w = (Py.Ret false, tr) ->
  w file_path = Readable data ->
  Py.utf8_valid data = true ->
  exists text,
    fst (extract_file_content guess_type file_path w) = Py.Ret text
    /\ Posixpath.has_char Py.CR text = false
    /\ (Posixpath.has_char Py.CR (string_of_list_byte data) = false ->
        text = string_of_list_byte data).
Proof.
  intros Hb Hw Hv.
  exists (Py.universal_newlines (string_of_list_byte data)).
  rewrite (extract_file_content_cases _ _ _ _ _ Hb). cbn [fst].
  rewrite Hw. cbn [text_or_placeholder]. rewrite Hv.
  split; [reflexivity |].
  split; [apply universal_newlines_no_cr | apply universal_newlines_without_cr].
Qed.

(** X8.  A file of ASCII bytes with no null byte, under a name for which no
    type is guessed, is always returned as its text, never as a
    placeholder. *)
Theorem plain_ascii_is_text (file_path : string) (w : fs) (data : list byte) :
  Py.truthy (guess_type file_path) = false ->
  w file_path = Readable data ->
  forallb (Py.in_range 1 127) data = true ->
  extract_file_content guess_type file_path w
  = (Py.Ret (Py.universal_newlines (string_of_list_byte data)),
     [EvOpen file_path RB; EvRead file_path (Some 1024);
      EvOpen file_path RText; EvRead file_path None]).
Proof.
  intros Hg Hw Ha.
  rewrite (extract_file_content_cases guess_type file_path w false
             [EvOpen file_path RB; EvRead file_path (Some 1024)]).
  - rewrite Hw. cbn [text_or_placeholder text_trace app].
    now rewrite (ascii_bytes_valid data Ha).
  - rewrite is_binary_file_untyped by exact Hg. rewrite Hw.
    now rewrite (ascii_bytes_no_null _ (forallb_firstn _ 1024 _ Ha)).
Qed.

End TypeFirst.

(** ** What a run offers and what it reads *)

Lemma filter_pointwise {A : Type} (f g : A -> bool) (l : list A) :
  (forall x, In x l -> f x = g x) -> filter f l = filter g l.
Proof.
  induction l as [| x l IH]; intros H; [reflexivity |].
  cbn [filter]. rewrite (H x) by now left.
  rewrite IH; [reflexivity |]. intros y Hy. apply H. now right.
Qed.

Section RunShape.

Variable guess_type : string -> option string.
Variable gettempdir : string.
Variable tmp_suffix : nat -> string.

Let merged (inp : inputs) (w : world) : Dict.dict :=
  snd (merge_sources gettempdir tmp_suffix inp w).
Let stored (inp : inputs) (w : world) : world :=
  fst (merge_sources gettempdir tmp_suffix inp w).

(** A run is the button's work followed by the cleanup. *)
Lemma script_shape (inp : inputs) (w : world) :
  script guess_type gettempdir tmp_suffix inp w
  = (Py.Ret tt,
     fst (cleanup gettempdir (Dict.values (merged inp w)) (stored inp w)),
     (button_trace guess_type inp (merged inp w) (files (stored inp w))
      ++ snd (cleanup gettempdir (Dict.values (merged inp w)) (stored inp w)))%list).
Proof.
  unfold merged, stored, script.
  destruct (merge_sources gettempdir tmp_suffix inp w) as [w1 d]. cbn [fst snd].
  destruct d as [| item d].
  - cbn [button_trace]. now destruct (cleanup gettempdir _ w1).
  - cbn [button_trace]. destruct (button inp).
    + unfold final_content.
      destruct (generate_blocks guess_type (item :: d)
                  (selection inp (item :: d)) (files w1)) as (tr & Htr).
      rewrite Htr. cbn [fst snd].
      now destruct (cleanup gettempdir _ w1).
    + now destruct (cleanup gettempdir _ w1).
Qed.

Lemma included_selection (inp : inputs) (d : Dict.dict) :
  filter (included (selection inp d)) (Sorted.sorted Sorted.tuple_leb d)
  = filter (fun item => checkbox inp (fst item)) (Sorted.sorted Sorted.tuple_leb d).
Proof.
  apply filter_pointwise. intros item Hin. unfold included.
  rewrite selection_spec; [apply negb_involutive |].
  apply in_map.
  eapply Permutation_in; [apply sorted_perm | exact Hin].
Qed.

Lemma script_downloads (inp : inputs) (w : world) :
  button inp = true -> merged inp w <> [] ->
  downloads (snd (script guess_type gettempdir tmp_suffix inp w))
  = [Py.join Py.NL
       (map (block guess_type (files (stored inp w)))
            (filter (fun item => checkbox inp (fst item))
                    (Sorted.sorted Sorted.tuple_leb (merged inp w))))].
Proof.
  intros Hb Hd. rewrite script_shape. cbn [snd].
  rewrite downloads_app, cleanup_no_download, app_nil_r.
  unfold button_trace. destruct (merged inp w) as [| item d] eqn:E;
    [contradiction |].
  rewrite Hb, downloads_app.
  destruct (generate_reads_only guess_type (item :: d)
              (selection inp (item :: d)) (files (stored inp w))) as [Hq _].
  rewrite Hq. cbn [downloads app]. f_equal.
  unfold final_content.
  destruct (generate_blocks guess_type (item :: d)
              (selection inp (item :: d)) (files (stored inp w))) as (tr & Htr).
  rewrite Htr. cbn [fst]. now rewrite included_selection.
Qed.

(** X9.  When there is a file and the button is pressed, the run offers one
    download: the blocks of the files whose boxes are checked, one each, in
    the order of their names.  A file whose box is unchecked has no block. *)
Theorem checked_files_make_the_output (inp : inputs) (w : world) :
  button inp = true ->
  snd (merge_sources gettempdir tmp_suffix inp w) <> [] ->
  downloads (snd (script guess_type gettempdir tmp_suffix inp w))
  = [Py.join Py.NL
       (map (block guess_type
                   (files (fst (merge_sources gettempdir tmp_suffix inp w))))
            (filter (fun item => checkbox inp (fst item))
                    (Sorted.sorted Sorted.tuple_leb
                       (snd (merge_sources gettempdir tmp_suffix inp w)))))].
Proof. apply script_downloads. Qed.

(** X10.  With every box unchecked the button still offers a download, and
    it is empty. *)
Theorem nothing_checked_empty_download (inp : inputs) (w : world) :
  button inp = true ->
  snd (merge_sources gettempdir tmp_suffix inp w) <> [] ->
  (forall name,
      In name (Dict.keys (snd (merge_sources gettempdir tmp_suffix inp w))) ->
      checkbox inp name = false) ->
  downloads (snd (script guess_type gettempdir tmp_suffix inp w)) = [EmptyString].
Proof.
  intros Hb Hd Hnone. rewrite (script_downloads inp w Hb Hd).
  replace (filter _ _) with (@nil (string * string)); [reflexivity |].
  symmetry.
  rewrite (filter_pointwise _ (fun _ => false)).
  - induction (Sorted.sorted _ _) as [| x l IH]; [reflexivity | exact IH].
  - intros item Hin. apply Hnone. apply in_map.
    eapply Permutation_in; [apply sorted_perm | exact Hin].
Qed.

End RunShape.

Section ReadPaths.

Variable guess_type : string -> option string.

Lemma is_binary_file_paths (file_path : string) (w : fs) (e : event) :
  In e (snd (is_binary_file guess_type file_path w)) ->
  event_path e = Some file_path.
Proof.
  unfold is_binary_file, bind, try_except, open_file, read_bytes, ret.
  destruct (Py.truthy (guess_type file_path)); [intros [] |].
  destruct (w file_path); cbn; intuition (subst; reflexivity).
Qed.

Lemma extract_file_content_paths (file_path : string) (w : fs) (e : event) :
  In e (snd (extract_file_content guess_type file_path w)) ->
  event_path e = Some file_path.
Proof.
  destruct (is_binary_file_total guess_type file_path w) as (b & tr & Hb).
  pose proof (is_binary_file_paths file_path w e) as Hq.
  rewrite Hb in Hq. cbn [snd] in Hq.
  rewrite (extract_file_content_cases _ _ _ _ _ Hb).
  destruct b; cbn [snd]; [exact Hq |].
  intros Hin. apply in_app_or in Hin as [Hin | Hin]; [auto |].
  unfold text_trace in Hin.
  destruct (w file_path); cbn in Hin; intuition (subst; reflexivity).
Qed.

Lemma combine_paths (items : list (string * string)) (ign acc : list string)
    (w : fs) (e : event) :
  In e (snd (combine guess_type items ign acc w)) ->
  exists name path,
    In (name, path) items /\ Py.str_in name ign = false
    /\ event_path e = Some path.
Proof.
  revert acc. induction items as [| [name path] items IH]; intros acc.
  - intros [].
  - cbn [combine]. destruct (Py.str_in name ign) eqn:Hi; cbn [negb].
    + intros Hin. destruct (IH _ Hin) as (n & p & H1 & H2 & H3).
      exists n, p. auto using in_cons.
    + unfold bind.
      pose proof (extract_file_content_paths path w e) as Hq.
      destruct (extract_file_content guess_type path w) as [[s | x] tr];
        cbn [snd] in *.
      * match goal with
        | |- context [combine _ _ _ ?a w] => specialize (IH a)
        end.
        destruct (combine guess_type items ign _ w) as [r tr']. cbn [snd] in *.
        intros Hin. apply in_app_or in Hin as [Hin | Hin].
        -- exists name, path. split; [now left | auto].
        -- destruct (IH Hin) as (n & p & H1 & H2 & H3).
           exists n, p. auto using in_cons.
      * intros Hin. exists name, path. split; [now left | auto].
Qed.

(** X11.  Generating opens and reads only paths stored for files that are
    not excluded: a file the user excluded is not touched, unless another
    name shares its path. *)
Theorem generate_reads_included_only (d : Dict.dict) (ign : list string)
    (w : fs) (e : event) :
  In e (snd (generate guess_type d ign w)) ->
  exists name path,
    In (name, path) d /\ Py.str_in name ign = false
    /\ event_path e = Some path.
Proof.
  unfold generate, bind.
  pose proof (combine_paths (Sorted.sorted Sorted.tuple_leb d) ign [] w e) as Hq.
  destruct (combine guess_type _ ign [] w) as [[l | x] tr]; cbn [snd] in *.
  - unfold ret. rewrite app_nil_r. intros Hin.
    destruct (Hq Hin) as (n & p & H1 & H2 & H3).
    exists n, p. split; [| auto].
    eapply Permutation_in; [apply sorted_perm | exact H1].
  - intros Hin. destruct (Hq Hin) as (n & p & H1 & H2 & H3).
    exists n, p. split; [| auto].
    eapply Permutation_in; [apply sorted_perm | exact H1].
Qed.

End ReadPaths.

(** ** What becomes of the temporary copies *)

Lemma dict_in_get (k v : string) (d : Dict.dict) :
  NoDup (Dict.keys d) -> In (k, v) d -> Dict.get k d = Some v.
Proof.
  induction d as [| [k' v'] d IH]; intros Hnd Hin; [destruct Hin |].
  cbn [Dict.keys map fst] in Hnd. inversion Hnd as [| ? ? Hnotin Hnd']; subst.
  cbn [Dict.get]. destruct Hin as [[= -> ->] | Hin].
  - now rewrite String.eqb_refl.
  - destruct (String.eqb_spec k' k) as [-> | _]; [| auto].
    exfalso. apply Hnotin. change k with (fst (k, v)). now apply in_map.
Qed.

Lemma dict_value_has_key (v : string) (d : Dict.dict) :
  NoDup (Dict.keys d) -> In v (Dict.values d) ->
  exists k, Dict.get k d = Some v.
Proof.
  intros Hnd Hin. apply in_map_iff in Hin as ([k v'] & Hv & Hin).
  cbn [snd] in Hv. subst v'. exists k. now apply dict_in_get.
Qed.

Section CleanupFiles.

Variable gettempdir : string.

Lemma unlink_missing_text (path : string) (w : world) :
  missing_text (snd (unlink path w)) = missing_text w.
Proof. unfold unlink. now destruct (unlink_failure w path). Qed.

Lemma unlink_done (path : string) (w : world) :
  unlink_failure w path = None ->
  files (snd (unlink path w)) path = CannotOpen (missing_text w path)
  /\ unlink_failure (snd (unlink path w)) path = Some (missing_text w path)
  /\ forall p, p <> path ->
       files (snd (unlink path w)) p = files w p
       /\ unlink_failure (snd (unlink path w)) p = unlink_failure w p.
Proof.
  intros Hf. unfold unlink. rewrite Hf. cbn [snd files unlink_failure].
  rewrite String.eqb_refl. repeat split;
    apply String.eqb_neq in H; now rewrite H.
Qed.

(** A path the cleanup does not come across is left as it was. *)
Lemma cleanup_files_untouched (paths : list string) (w : world) (p : string) :
  ~ In p paths ->
  files (fst (cleanup gettempdir paths w)) p = files w p.
Proof.
  revert w. induction paths as [| path rest IH]; intros w Hp; [reflexivity |].
  assert (Hne : p <> path) by (intros ->; apply Hp; now left).
  assert (Hrest : ~ In p rest) by (intros H; apply Hp; now right).
  rewrite cleanup_cons.
  destruct (Py.startswith path gettempdir); [| now apply IH].
  destruct (unlink_failure w path) eqn:Hf; cbn [fst]; [now apply IH |].
  rewrite IH by exact Hrest.
  now apply (unlink_done path w Hf).
Qed.

(** What cannot be deleted is not changed. *)
Lemma cleanup_keeps_refused (paths : list string) (w : world) (p msg : string) :
  unlink_failure w p = Some msg ->
  files (fst (cleanup gettempdir paths w)) p = files w p.
Proof.
  revert w. induction paths as [| path rest IH]; intros w Hp; [reflexivity |].
  rewrite cleanup_cons.
  destruct (Py.startswith path gettempdir); [| now apply IH].
  destruct (unlink_failure w path) eqn:Hf; cbn [fst]; [now apply IH |].
  assert (Hne : p <> path) by (intros ->; congruence).
  destruct (unlink_done path w Hf) as (_ & _ & Hsame).
  destruct (Hsame p Hne) as [Hfiles Hfail].
  rewrite IH by (rewrite Hfail; exact Hp). exact Hfiles.
Qed.

(** A path under the temporary directory that may be deleted is gone after
    the cleanup. *)
Lemma cleanup_deletes (paths : list string) (w : world) (p : string) :
  In p paths -> Py.startswith p gettempdir = true ->
  unlink_failure w p = None ->
  files (fst (cleanup gettempdir paths w)) p
  = CannotOpen (missing_text w p).
Proof.
  revert w. induction paths as [| path rest IH]; intros w Hin Ht Hf;
    [destruct Hin |].
  rewrite cleanup_cons.
  destruct (String.eqb_spec path p) as [-> | Hne].
  - rewrite Ht, Hf. cbn [fst].
    destruct (unlink_done p w Hf) as (Hgone & Hrefused & _).
    rewrite (cleanup_keeps_refused rest _ p _ Hrefused). exact Hgone.
  - destruct Hin as [-> | Hin]; [contradiction |].
    destruct (Py.startswith path gettempdir); [| now apply IH].
    destruct (unlink_failure w path) eqn:Hf'; cbn [fst]; [now apply IH |].
    rewrite <- (unlink_missing_text path w).
    apply IH; try assumption.
    destruct (unlink_done path w Hf') as (_ & _ & Hsame).
    destruct (Hsame p) as [_ ->]; congruence.
Qed.

End CleanupFiles.

Section Lifecycle.

Variable guess_type : string -> option string.
Variable gettempdir : string.
Variable tmp_suffix : nat -> string.

(** The names made up have no dot and no separator in them, and none is
    handed out twice. *)
Hypothesis tmp_suffix_plain :
  forall n, Posixpath.has_char "."%char (tmp_suffix n) = false
            /\ Posixpath.has_char Posixpath.sep (tmp_suffix n) = false.
Hypothesis tmp_suffix_fresh : forall m n, tmp_suffix m = tmp_suffix n -> m = n.

Let tmp (n : nat) : string := tmp_name gettempdir tmp_suffix n.

Lemma tmp_name_under_tmpdir (n : nat) : Py.startswith (tmp n) gettempdir = true.
Proof. apply join_prefix. apply (tmp_leaf_plain tmp_suffix tmp_suffix_plain). Qed.

Lemma store_uploads_missing_text (ups : list (string * list byte))
    (w : world) (d : Dict.dict) :
  missing_text (fst (store_uploads gettempdir tmp_suffix ups w d))
  = missing_text w.
Proof.
  revert w d. induction ups as [| [name value] ups IH]; intros w d;
    cbn [store_uploads]; [reflexivity |].
  now rewrite IH.
Qed.

Lemma store_uploads_stays_deletable (ups : list (string * list byte))
    (w : world) (d : Dict.dict) (p : string) :
  unlink_failure w p = None ->
  unlink_failure (fst (store_uploads gettempdir tmp_suffix ups w d)) p = None.
Proof.
  revert w d. induction ups as [| [name value] ups IH]; intros w d Hp;
    cbn [store_uploads]; [exact Hp |].
  apply IH. cbn [unlink_failure]. now destruct (String.eqb p _).
Qed.

Lemma store_uploads_deletable (ups : list (string * list byte)) (w : world)
    (d : Dict.dict) (i : nat) (item : string * list byte) :
  nth_error ups i = Some item ->
  unlink_failure (fst (store_uploads gettempdir tmp_suffix ups w d))
                 (tmp (next_tmp w + i)) = None.
Proof.
  revert w d i. induction ups as [| [name value] ups IH]; intros w d i Hi.
  - destruct i; discriminate.
  - cbn [store_uploads]. destruct i as [| i].
    + apply store_uploads_stays_deletable. cbn [unlink_failure].
      rewrite Nat.add_0_r. unfold tmp. now rewrite String.eqb_refl.
    + cbn [nth_error] in Hi.
      match goal with
      | |- context [store_uploads _ _ ups ?w1 ?d1] => specialize (IH w1 d1 i Hi)
      end.
      cbn [next_tmp] in IH.
      replace (next_tmp w + S i) with (S (next_tmp w) + i) by lia.
      exact IH.
Qed.

(** A name keeps the copy of the last upload made under it. *)
Lemma store_uploads_bound_later (ups : list (string * list byte)) (w : world)
    (d : Dict.dict) (name : string) (n : nat) :
  Dict.get name d = Some (tmp n) -> n < next_tmp w ->
  exists n', n <= n'
    /\ Dict.get name (snd (store_uploads gettempdir tmp_suffix ups w d))
       = Some (tmp n').
Proof.
  revert w d n. induction ups as [| [name' value] ups IH]; intros w d n Hg Hn.
  - exists n. split; [lia | exact Hg].
  - cbn [store_uploads].
    destruct (String.eqb_spec name name') as [<- | Hne].
    + match goal with
      | |- context [store_uploads _ _ ups ?w1 ?d1] =>
        destruct (IH w1 d1 (next_tmp w)) as (n' & Hle & Hg')
      end.
      * apply dict_get_set_same.
      * cbn [next_tmp]. lia.
      * exists n'. split; [lia | exact Hg'].
    + match goal with
      | |- context [store_uploads _ _ ups ?w1 ?d1] =>
        destruct (IH w1 d1 n) as (n' & Hle & Hg')
      end.
      * rewrite dict_get_set_other by exact Hne. exact Hg.
      * cbn [next_tmp]. lia.
      * exists n'. split; [lia | exact Hg'].
Qed.

Lemma store_uploads_last (ups : list (string * list byte)) (w : world)
    (d : Dict.dict) (j : nat) (name : string) (data : list byte) :
  nth_error ups j = Some (name, data) ->
  exists j', j <= j'
    /\ Dict.get name (snd (store_uploads gettempdir tmp_suffix ups w d))
       = Some (tmp (next_tmp w + j')).
Proof.
  revert w d j. induction ups as [| [name' value] ups IH]; intros w d j Hj.
  - destruct j; discriminate.
  - cbn [store_uploads]. destruct j as [| j].
    + injection Hj as -> ->.
      match goal with
      | |- context [store_uploads _ _ ups ?w1 ?d1] =>
        destruct (store_uploads_bound_later ups w1 d1 name (next_tmp w))
          as (n' & Hle & Hg')
      end.
      * apply dict_get_set_same.
      * cbn [next_tmp]. lia.
      * exists (n' - next_tmp w). split; [lia |].
        replace (next_tmp w + (n' - next_tmp w)) with n' by lia. exact Hg'.
    + cbn [nth_error] in Hj.
      match goal with
      | |- context [store_uploads _ _ ups ?w1 ?d1] =>
        destruct (IH w1 d1 j Hj) as (j' & Hle & Hg')
      end.
      cbn [next_tmp] in Hg'. exists (S j'). split; [lia |].
      replace (next_tmp w + S j') with (S (next_tmp w) + j') by lia. exact Hg'.
Qed.

Lemma script_unlink_attempts (inp : inputs) (w : world) :
  unlink_attempts (snd (script guess_type gettempdir tmp_suffix inp w))
  = filter (fun path => Py.startswith path gettempdir)
           (Dict.values (snd (merge_sources gettempdir tmp_suffix inp w))).
Proof.
  rewrite script_shape. cbn [snd].
  rewrite unlink_attempts_app, cleanup_attempts.
  replace (unlink_attempts (button_trace _ _ _ _)) with (@nil string);
    [reflexivity |].
  unfold button_trace.
  destruct (snd (merge_sources gettempdir tmp_suffix inp w)) as [| item d];
    [reflexivity |].
  destruct (button inp); [| reflexivity].
  rewrite unlink_attempts_app.
  destruct (generate_reads_only guess_type (item :: d)
              (selection inp (item :: d))
              (files (fst (merge_sources gettempdir tmp_suffix inp w))))
    as [_ Hq].
  now rewrite Hq.
Qed.

(** X12.  The temporary copy of an upload that still has its entry in the
    mapping is passed to [os.unlink] at the end of the run and is gone
    afterwards (opening it fails as for a path that is not there), whether
    or not the button was pressed. *)
Theorem stored_copy_deleted (inp : inputs) (w : world) (i : nat)
    (name : string) (data : list byte) :
  nth_error (uploaded_files inp) i = Some (name, data) ->
  Dict.get name (snd (merge_sources gettempdir tmp_suffix inp w))
  = Some (tmp_name gettempdir tmp_suffix (next_tmp w + i)) ->
  In (tmp_name gettempdir tmp_suffix (next_tmp w + i))
     (unlink_attempts (snd (script guess_type gettempdir tmp_suffix inp w)))
  /\ files (snd (fst (script guess_type gettempdir tmp_suffix inp w)))
           (tmp_name gettempdir tmp_suffix (next_tmp w + i))
     = CannotOpen (missing_text w (tmp_name gettempdir tmp_suffix (next_tmp w + i))).
Proof.
  intros Hi Hg. apply dict_get_in_values in Hg.
  split.
  - rewrite script_unlink_attempts. apply filter_In.
    split; [exact Hg | apply tmp_name_under_tmpdir].
  - rewrite script_shape. cbn [fst snd].
    assert (Hw : fst (merge_sources gettempdir tmp_suffix inp w)
                 = fst (store_uploads gettempdir tmp_suffix (uploaded_files inp) w [])).
    { unfold merge_sources.
      destruct (store_uploads gettempdir tmp_suffix (uploaded_files inp) w [])
        as [w1 d1].
      now destruct (uploaded_dir inp), (dir_on_disk inp). }
    rewrite <- (store_uploads_missing_text (uploaded_files inp) w []), <- Hw.
    apply cleanup_deletes; [exact Hg | apply tmp_name_under_tmpdir |].
    rewrite Hw. exact (store_uploads_deletable (uploaded_files inp) w [] i _ Hi).
Qed.

(** X13.  When two uploads have the same name and no directory is given,
    the temporary copy of the earlier one has lost its entry in the mapping:
    it is never passed to [os.unlink] and is still there, with its bytes,
    when the run ends. *)
Theorem displaced_copy_left_behind (inp : inputs) (w : world) (i j : nat)
    (name : string) (data data' : list byte) :
  uploaded_dir inp = "" \/ dir_on_disk inp = None ->
  nth_error (uploaded_files inp) i = Some (name, data) ->
  nth_error (uploaded_files inp) j = Some (name, data') ->
  i < j ->
  ~ In (tmp_name gettempdir tmp_suffix (next_tmp w + i))
       (unlink_attempts (snd (script guess_type gettempdir tmp_suffix inp w)))
  /\ files (snd (fst (script guess_type gettempdir tmp_suffix inp w)))
           (tmp_name gettempdir tmp_suffix (next_tmp w + i))
     = Readable data.
Proof.
  intros Hnodir Hi Hj Hlt.
  assert (Hm : merge_sources gettempdir tmp_suffix inp w
               = store_uploads gettempdir tmp_suffix (uploaded_files inp) w []).
  { unfold merge_sources.
    destruct (store_uploads gettempdir tmp_suffix (uploaded_files inp) w [])
      as [w1 d1].
    destruct Hnodir as [-> | ->]; [reflexivity |].
    now destruct (uploaded_dir inp). }
  assert (Hout : ~ In (tmp (next_tmp w + i))
                      (Dict.values
                         (snd (store_uploads gettempdir tmp_suffix
                                 (uploaded_files inp) w [])))).
  { intros Hin.
    apply dict_value_has_key in Hin as (k & Hk);
      [| apply store_uploads_nodup; constructor].
    pose proof Hk as Hk'.
    apply store_uploads_entries in Hk' as [Hk' | (i0 & data0 & Hi0 & E)];
      [discriminate |].
    apply (tmp_name_inj gettempdir tmp_suffix tmp_suffix_plain tmp_suffix_fresh)
      in E.
    assert (i0 = i) by lia. subst i0.
    rewrite Hi in Hi0. injection Hi0 as <- <-.
    destruct (store_uploads_last (uploaded_files inp) w [] j name data' Hj)
      as (j' & Hle & Hg').
    rewrite Hk in Hg'. injection Hg' as E'.
    apply (tmp_name_inj gettempdir tmp_suffix tmp_suffix_plain tmp_suffix_fresh)
      in E'.
    lia. }
  split.
  - rewrite script_unlink_attempts, Hm. intros Hin.
    apply filter_In in Hin as [Hin _]. exact (Hout Hin).
  - rewrite script_shape, Hm. cbn [fst snd].
    rewrite cleanup_files_untouched by exact Hout.
    exact (store_uploads_copies gettempdir tmp_suffix tmp_suffix_plain
             tmp_suffix_fresh (uploaded_files inp) w [] i name data Hi).
Qed.

End Lifecycle.

(** ** The further properties on sample runs *)

(** X2 on a small project walked with [readme.md] excluded. *)
Lemma get_files_from_directory_keys_allowed_witness :
  should_ignore_path "src/main.py" = false
  /\ Py.str_in "src/main.py" ["readme.md"] = false.
Proof.
  apply (get_files_from_directory_keys_allowed "/proj" small_project
           ["readme.md"] "src/main.py").
  vm_compute. now left.
Defined.

(** X3 on the same project. *)
Lemma get_files_from_directory_points_witness :
  "/proj/src/main.py" = Posixpath.join "/proj" "src/main.py".
Proof.
  apply (get_files_from_directory_points "/proj" small_project []
           "src/main.py" "/proj/src/main.py"); reflexivity.
Defined.

(** X5 on a PDF that holds plain text. *)
Lemma extract_file_content_by_type_witness :
  extract_file_content sample_guess_type "/d/report.pdf"
    (one_file "/d/report.pdf" (bytes_of "hello"))
  = (Py.Ret "[Skipped binary file: /d/report.pdf]", []).
Proof.
  apply (extract_file_content_by_type sample_guess_type "/d/report.pdf"
           "application/pdf"); [reflexivity | discriminate].
Defined.

(** X6 on 1024 letters followed by a null byte. *)
Lemma null_byte_past_first_chunk_witness :
  is_binary_file sample_guess_type "/d/notes"
    (one_file "/d/notes" (long_chunk ++ [x00]))
  = (Py.Ret false, [EvOpen "/d/notes" RB; EvRead "/d/notes" (Some 1024)])
  /\ fst (extract_file_content sample_guess_type "/d/notes"
            (one_file "/d/notes" (long_chunk ++ [x00])))
     = Py.Ret (Py.universal_newlines (string_of_list_byte (long_chunk ++ [x00]))).
Proof.
  destruct (null_byte_past_first_chunk sample_guess_type "/d/notes"
              (one_file "/d/notes" (long_chunk ++ [x00])) long_chunk [x00]
              eq_refl eq_refl eq_refl) as [Hsniff Htext].
  split; [exact Hsniff | apply Htext; vm_compute; reflexivity].
Defined.

(** X7 on a file with no carriage return. *)
Lemma extracted_text_line_ends_witness :
  exists text,
    fst (extract_file_content sample_guess_type "/d/notes"
           (one_file "/d/notes" (bytes_of "hello")))
    = Py.Ret text
    /\ Posixpath.has_char Py.CR text = false
    /\ (Posixpath.has_char Py.CR (string_of_list_byte (bytes_of "hello")) = false ->
        text = string_of_list_byte (bytes_of "hello")).
Proof.
  apply (extracted_text_line_ends sample_guess_type "/d/notes"
           (one_file "/d/notes" (bytes_of "hello"))
           [EvOpen "/d/notes" RB; EvRead "/d/notes" (Some 1024)]);
    reflexivity.
Defined.

(** X8 on the same file. *)
Lemma plain_ascii_is_text_witness :
  extract_file_content sample_guess_type "/d/notes"
    (one_file "/d/notes" (bytes_of "hello"))
  = (Py.Ret (Py.universal_newlines (string_of_list_byte (bytes_of "hello"))),
     [EvOpen "/d/notes" RB; EvRead "/d/notes" (Some 1024);
      EvOpen "/d/notes" RText; EvRead "/d/notes" None]).
Proof.
  apply (plain_ascii_is_text sample_guess_type "/d/notes"
           (one_file "/d/notes" (bytes_of "hello"))); reflexivity.
Defined.

(** X9 on two uploads with the box of [b.bin] unchecked. *)
Lemma checked_files_make_the_output_witness :
  downloads (snd (script sample_guess_type sample_tmpdir sample_tmp_suffix
                    one_unchecked empty_world))
  = [Py.join Py.NL
       (map (block sample_guess_type
                   (files (fst (merge_sources sample_tmpdir sample_tmp_suffix
                                  one_unchecked empty_world))))
            (filter (fun item => checkbox one_unchecked (fst item))
                    (Sorted.sorted Sorted.tuple_leb
                       (snd (merge_sources sample_tmpdir sample_tmp_suffix
                               one_unchecked empty_world)))))].
Proof.
  apply (checked_files_make_the_output sample_guess_type sample_tmpdir
           sample_tmp_suffix one_unchecked empty_world);
    [reflexivity | vm_compute; discriminate].
Defined.

(** X10 on an upload whose box is unchecked. *)
Lemma nothing_checked_empty_download_witness :
  downloads (snd (script sample_guess_type sample_tmpdir sample_tmp_suffix
                    none_checked empty_world))
  = [EmptyString].
Proof.
  apply (nothing_checked_empty_download sample_guess_type sample_tmpdir
           sample_tmp_suffix none_checked empty_world);
    [reflexivity | vm_compute; discriminate | reflexivity].
Defined.

(** X11 on the first read of a generation. *)
Lemma generate_reads_included_only_witness :
  exists name path,
    In (name, path) [("a.txt", "/tmp/tmpaaaaaaaa")]
    /\ Py.str_in name [] = false
    /\ event_path (EvOpen "/tmp/tmpaaaaaaaa" RB) = Some path.
Proof.
  apply (generate_reads_included_only sample_guess_type
           [("a.txt", "/tmp/tmpaaaaaaaa")] [] (two_copies [x00])
           (EvOpen "/tmp/tmpaaaaaaaa" RB)).
  vm_compute. now left.
Defined.

(** X12 on the copy of [b.bin]. *)
Lemma stored_copy_deleted_witness :
  In "/tmp/tmpaaaaaaaaa"
     (unlink_attempts (snd (script sample_guess_type sample_tmpdir
                              sample_tmp_suffix (two_uploads [x00; xff])
                              empty_world)))
  /\ files (snd (fst (script sample_guess_type sample_tmpdir sample_tmp_suffix
                       (two_uploads [x00; xff]) empty_world)))
           "/tmp/tmpaaaaaaaaa"
     = CannotOpen (enoent "/tmp/tmpaaaaaaaaa").
Proof.
  apply (stored_copy_deleted sample_guess_type sample_tmpdir sample_tmp_suffix
           sample_tmp_suffix_plain (two_uploads [x00; xff]) empty_world 1
           "b.bin" [x00; xff]); reflexivity.
Defined.

(** X13 on two uploads named [a.txt]: the first copy stays. *)
Lemma displaced_copy_left_behind_witness :
  ~ In "/tmp/tmpaaaaaaaa"
       (unlink_attempts (snd (script sample_guess_type sample_tmpdir
                                sample_tmp_suffix same_name_twice empty_world)))
  /\ files (snd (fst (script sample_guess_type sample_tmpdir sample_tmp_suffix
                       same_name_twice empty_world)))
           "/tmp/tmpaaaaaaaa"
     = Readable (bytes_of "first").
Proof.
  apply (displaced_copy_left_behind sample_guess_type sample_tmpdir
           sample_tmp_suffix sample_tmp_suffix_plain sample_tmp_suffix_fresh
           same_name_twice empty_world 0 1 "a.txt" (bytes_of "first")
           (bytes_of "second"));
    [now left | reflexivity | reflexivity | lia].
Defined.

(** ** Uploads in a run *)

Section ItemTrace.

Variable guess_type : string -> option string.




End ItemTrace.

Section UploadsInRun.

Variable guess_type : string -> option string.
Variable gettempdir : string.
Variable tmp_suffix : nat -> string.

(** The temporary directory is an absolute path. *)
Hypothesis gettempdir_absolute : Py.startswith gettempdir "/" = true.
(** The names made up have no dot and no separator in them, and none is
    handed out twice. *)
Hypothesis tmp_suffix_plain :
  forall n, Posixpath.has_char "."%char (tmp_suffix n) = false
            /\ Posixpath.has_char Posixpath.sep (tmp_suffix n) = false.
Hypothesis tmp_suffix_fresh : forall m n, tmp_suffix m = tmp_suffix n -> m = n.
(** An absolute path whose last component has no dot has no content type. *)
Hypothesis guess_type_needs_extension :
  forall p, Py.startswith p "/" = true ->
            Posixpath.has_char "."%char (Posixpath.basename p) = false ->
            guess_type p = None.




End UploadsInRun.


(** ** A host that refuses an upload *)

Section Refusals.

Variable guess_type : string -> option string.
Variable gettempdir : string.
Variable tmp_suffix : nat -> string.

Hypothesis tmp_suffix_plain :
  forall n, Posixpath.has_char "."%char (tmp_suffix n) = false
            /\ Posixpath.has_char Posixpath.sep (tmp_suffix n) = false.
Hypothesis tmp_suffix_fresh : forall m n, tmp_suffix m = tmp_suffix n -> m = n.

Variable refused : nat -> option refusal.

Let tmp (n : nat) : string := tmp_name gettempdir tmp_suffix n.

Lemma tmp_other (m n : nat) : m <> n -> String.eqb (tmp m) (tmp n) = false.
Proof.
  intros Hne. apply String.eqb_neq. intros E.
  apply (tmp_name_inj gettempdir tmp_suffix tmp_suffix_plain tmp_suffix_fresh)
    in E.
  contradiction.
Qed.

(** On a host that refuses nothing the loop is [store_uploads]. *)
Lemma upload_loop_accepts (ups : list (string * list byte)) (w : world)
    (d : Dict.dict) :
  (forall i, i < List.length ups -> refused (next_tmp w + i) = None) ->
  upload_loop gettempdir tmp_suffix refused ups w d
  = (Py.Ret (snd (store_uploads gettempdir tmp_suffix ups w d)),
     fst (store_uploads gettempdir tmp_suffix ups w d)).
Proof.
  revert w d. induction ups as [| [name value] ups IH]; intros w d Hn;
    [reflexivity |].
  cbn [upload_loop store_uploads].
  pose proof (Hn 0 ltac:(cbn [List.length]; lia)) as H0.
  rewrite Nat.add_0_r in H0. rewrite H0.
  apply IH. intros i Hi. cbn [next_tmp].
  replace (S (next_tmp w) + i) with (next_tmp w + S i) by lia.
  apply Hn. cbn [List.length]. lia.
Qed.

(** The first refusal ends the loop: the copies made before it hold their
    uploads, the file asked for is as the refusal leaves it, and no other
    path is touched. *)
Lemma upload_loop_refusal (ups : list (string * list byte)) (w : world)
    (d : Dict.dict) (i : nat) (r : refusal) :
  i < List.length ups ->
  (forall j, j < i -> refused (next_tmp w + j) = None) ->
  refused (next_tmp w + i) = Some r ->
  exists w',
    upload_loop gettempdir tmp_suffix refused ups w d
    = (Py.Raise (Py.OSError (refusal_text r)), w')
    /\ (forall j name data,
          j < i -> nth_error ups j = Some (name, data) ->
          files w' (tmp (next_tmp w + j)) = Readable data)
    /\ files w' (tmp (next_tmp w + i))
       = match r with
         | NoTemporaryFile _ => files w (tmp (next_tmp w + i))
         | WriteFails _ reached => Readable reached
         end
    /\ (forall p, (forall j, j <= i -> p <> tmp (next_tmp w + j)) ->
                  files w' p = files w p).
Proof.
  revert w d i. induction ups as [| [name value] ups IH]; intros w d i Hi Hj Hr;
    [cbn [List.length] in Hi; lia |].
  cbn [upload_loop]. destruct i as [| i].
  - rewrite Nat.add_0_r in *. rewrite Hr.
    destruct r as [msg | msg reached]; eexists; (split; [reflexivity |]);
      cbn [files refusal_text].
    + split; [intros; lia |]. split; [reflexivity |]. reflexivity.
    + split; [intros; lia |]. split.
      * unfold tmp. now rewrite String.eqb_refl.
      * intros p Hp. specialize (Hp 0 (le_n 0)). rewrite Nat.add_0_r in Hp.
        apply String.eqb_neq in Hp. unfold tmp in Hp. now rewrite Hp.
  - pose proof (Hj 0 ltac:(lia)) as H0. rewrite Nat.add_0_r in H0. rewrite H0.
    match goal with
    | |- context [upload_loop _ _ _ ups ?w1 ?d1] =>
      destruct (IH w1 d1 i) as (w' & E & Hcopies & Hat & Hframe)
    end.
    + cbn [List.length] in Hi. lia.
    + intros j Hlt. cbn [next_tmp].
      replace (S (next_tmp w) + j) with (next_tmp w + S j) by lia.
      apply Hj. lia.
    + cbn [next_tmp].
      now replace (S (next_tmp w) + i) with (next_tmp w + S i) by lia.
    + cbn [next_tmp files] in *. exists w'. split; [exact E |].
      assert (Hold : forall p, (forall j, j <= i -> p <> tmp (S (next_tmp w) + j)) ->
                files w' p
                = if String.eqb p (tmp (next_tmp w)) then Readable value
                  else files w p)
        by (intros p Hp; now rewrite Hframe).
      split; [| split].
      * intros [| j] name' data Hlt Hnth.
        -- cbn [nth_error] in Hnth. injection Hnth as _ <-.
           rewrite Nat.add_0_r, Hold.
           ++ now rewrite String.eqb_refl.
           ++ intros j _ E'.
              apply (tmp_name_inj gettempdir tmp_suffix tmp_suffix_plain
                       tmp_suffix_fresh) in E'. lia.
        -- cbn [nth_error] in Hnth.
           replace (next_tmp w + S j) with (S (next_tmp w) + j) by lia.
           apply (Hcopies j name' data); [lia | exact Hnth].
      * replace (next_tmp w + S i) with (S (next_tmp w) + i) by lia.
        rewrite Hat. destruct r; [| reflexivity].
        fold (tmp (next_tmp w)). rewrite tmp_other by lia. reflexivity.
      * intros p Hp. rewrite Hold.
        -- pose proof (Hp 0 ltac:(lia)) as Hp0. rewrite Nat.add_0_r in Hp0.
           apply String.eqb_neq in Hp0. now rewrite Hp0.
        -- intros j Hle.
           replace (S (next_tmp w) + j) with (next_tmp w + S j) by lia.
           apply Hp. lia.
Qed.

(** X14.  The loop over the uploads has no handler.  When the host stores
    every upload the run is the one [script] describes.  When the host
    refuses an upload the run ends there with the host's error: nothing is
    read, no download is offered and nothing is deleted, so the copies of
    the uploads before it stay on the disk with their bytes; the file asked
    for is left as the refusal left it and no other path is touched. *)
Theorem refused_upload_ends_run (inp : inputs) (w : world) :
  ((forall i, i < List.length (uploaded_files inp) ->
              refused (next_tmp w + i) = None) ->
   run guess_type gettempdir tmp_suffix refused inp w
   = script guess_type gettempdir tmp_suffix inp w)
  /\ (forall i r,
        i < List.length (uploaded_files inp) ->
        (forall j, j < i -> refused (next_tmp w + j) = None) ->
        refused (next_tmp w + i) = Some r ->
        fst (fst (run guess_type gettempdir tmp_suffix refused inp w))
        = Py.Raise (Py.OSError (refusal_text r))
        /\ snd (run guess_type gettempdir tmp_suffix refused inp w) = []
        /\ (forall j name data,
              j < i -> nth_error (uploaded_files inp) j = Some (name, data) ->
              files (snd (fst (run guess_type gettempdir tmp_suffix refused inp w)))
                    (tmp_name gettempdir tmp_suffix (next_tmp w + j))
              = Readable data)
        /\ files (snd (fst (run guess_type gettempdir tmp_suffix refused inp w)))
                 (tmp_name gettempdir tmp_suffix (next_tmp w + i))
           = match r with
             | NoTemporaryFile _ =>
               files w (tmp_name gettempdir tmp_suffix (next_tmp w + i))
             | WriteFails _ reached => Readable reached
             end
        /\ (forall p,
              (forall j, j <= i ->
                         p <> tmp_name gettempdir tmp_suffix (next_tmp w + j)) ->
              files (snd (fst (run guess_type gettempdir tmp_suffix refused inp w))) p
              = files w p)).
Proof.
  split.
  - intros Hn. unfold run. now rewrite upload_loop_accepts.
  - intros i r Hi Hj Hr. unfold run.
    destruct (upload_loop_refusal (uploaded_files inp) w [] i r Hi Hj Hr)
      as (w' & E & Hcopies & Hat & Hframe).
    rewrite E. cbn [fst snd]. repeat split; assumption.
Qed.

End Refusals.

(** X14 on the uploads [a.txt] and [b.bin] and a disk that fills up while
    [b.bin] is written: the run ends with the host's error, and the copy of
    [a.txt] stays in the temporary directory. *)
Lemma refused_upload_ends_run_witness :
  fst (fst (run sample_guess_type sample_tmpdir sample_tmp_suffix full_disk
                (two_uploads [x00; xff]) empty_world))
  = Py.Raise (Py.OSError "[Errno 28] No space left on device")
  /\ snd (run sample_guess_type sample_tmpdir sample_tmp_suffix full_disk
              (two_uploads [x00; xff]) empty_world) = []
  /\ files (snd (fst (run sample_guess_type sample_tmpdir sample_tmp_suffix
                          full_disk (two_uploads [x00; xff]) empty_world)))
           "/tmp/tmpaaaaaaaa"
     = Readable (bytes_of "hello").
Proof.
  destruct (proj2 (refused_upload_ends_run sample_guess_type sample_tmpdir
                     sample_tmp_suffix sample_tmp_suffix_plain
                     sample_tmp_suffix_fresh full_disk
                     (two_uploads [x00; xff]) empty_world)
              1 (WriteFails "[Errno 28] No space left on device" []))
    as (Hraise & Htrace & Hcopies & _).
  - cbn. lia.
  - intros [| j] Hlt; [reflexivity | lia].
  - reflexivity.
  - split; [exact Hraise |]. split; [exact Htrace |].
    exact (Hcopies 0 "a.txt" (bytes_of "hello") (le_n 1) eq_refl).
Defined.
